(** * OpenFields2 housekeeping scripts: a shallow embedding

    Two independent Python scripts are modelled here:

    - [scale_weapon_damage.py] (the "Value Rescaler"): multiplies the
      [damage] attribute of every weapon record of a JSON document;
    - [plans/move_cycle_to_completed.py] (the "Archive Relocator"): moves
      the planning files of one development cycle into [completed/].

    Python values are modelled as an inductive type, Python exceptions as an
    error monad threaded through an explicit world (file system and standard
    output).  The definitions come first, the theorems follow. *)

From Stdlib Require Import ZArith String Ascii List Bool Lia DecimalString.
From Stdlib Require Import Floats.SpecFloat.
From stdpp Require Import base option list strings gmap.

Set Warnings "-register-all,-clear-no-such-hyp".
Local Open Scope Z_scope.
Local Open Scope string_scope.

(* ===================================================================== *)
(** ** The Python runtime the two scripts share *)
(* ===================================================================== *)

Module Py.

(** The exception classes the scripts can meet.  [SystemExit] is what
    [sys.exit] raises; it derives from [BaseException], not from
    [Exception].  [JSONDecodeError] and [UnicodeDecodeError] derive from
    [ValueError]. *)
Inductive exn : Type :=
| TypeError
| KeyError
| AttributeError
| ValueError
| OverflowError
| JSONDecodeError
| UnicodeDecodeError
| RecursionError
| FileNotFoundError
| IsADirectoryError
| FileExistsError
| PermissionError
| ShutilError
| SystemExit (code : Z).

(** [isinstance(e, Exception)] *)
Definition is_Exception (e : exn) : bool :=
  match e with SystemExit _ => false | _ => true end.

(** [isinstance(e, ValueError)] *)
Definition is_ValueError (e : exn) : bool :=
  match e with
  | ValueError | JSONDecodeError | UnicodeDecodeError => true
  | _ => false
  end.

Inductive result (A : Type) : Type :=
| Ok (a : A)
| Raise (e : exn).
Arguments Ok {A} a.
Arguments Raise {A} e.

(** A computation over a world [W]: it returns or raises, and leaves a
    world behind in both cases. *)
Definition M (W A : Type) : Type := W -> result A * W.

Definition ret {W A} (a : A) : M W A := fun w => (Ok a, w).

Definition bind {W A B} (m : M W A) (k : A -> M W B) : M W B :=
  fun w =>
    match m w with
    | (Ok a, w') => k a w'
    | (Raise e, w') => (Raise e, w')
    end.

Definition raise {W A} (e : exn) : M W A := fun w => (Raise e, w).

(** A pure partial operation, run inside a computation. *)
Definition lift {W A} (r : result A) : M W A := fun w => (r, w).

(** The [except] clauses of a [try]: the first clause whose class the
    exception belongs to runs; with none, the exception goes on.  What a
    handler raises is not offered to the clauses that follow it. *)
Fixpoint dispatch {W A} (clauses : list ((exn -> bool) * (exn -> M W A)))
         (e : exn) : M W A :=
  match clauses with
  | [] => raise e
  | (handled, handler) :: rest =>
      if handled e then handler e else dispatch rest e
  end.

(** [try: body  except C1 as e: h1 e  except C2 as e: h2 e ...] *)
Definition try_except {W A} (body : M W A)
           (clauses : list ((exn -> bool) * (exn -> M W A))) : M W A :=
  fun w =>
    match body w with
    | (Ok a, w') => (Ok a, w')
    | (Raise e, w') => dispatch clauses e w'
    end.

#[global] Instance M_ret {W} : MRet (M W) := @ret W.
#[global] Instance M_bind {W} : MBind (M W) := fun A B k m => bind m k.

(** The exit status of the interpreter once the script's [main] is over:
    0 after a normal return, the argument of [sys.exit], and 1 after an
    exception nobody caught (the traceback goes to stderr). *)
Definition exit_code {A} (r : result A) : Z :=
  match r with
  | Ok _ => 0
  | Raise (SystemExit c) => c
  | Raise _ => 1
  end.

(** JSON values as [json.load] builds them: [dict] keeps the order of the
    keys, so an object is an association list. *)
Inductive json : Type :=
| JNull
| JBool (b : bool)
| JInt (z : Z)
| JFloat (f : spec_float)
| JStr (s : string)
| JArr (items : list json)
| JObj (fields : list (string * json)).

(** *** Dictionaries *)

Fixpoint assoc {A} (k : string) (kvs : list (string * A)) : option A :=
  match kvs with
  | [] => None
  | (k', v) :: rest => if String.eqb k k' then Some v else assoc k rest
  end.

(** [d[k] = v] on a key that may be present: the value is replaced where
    the key stands, a new key goes to the end. *)
Fixpoint assoc_set {A} (k : string) (v : A) (kvs : list (string * A))
  : list (string * A) :=
  match kvs with
  | [] => [(k, v)]
  | (k', v') :: rest =>
      if String.eqb k k' then (k', v) :: rest
      else (k', v') :: assoc_set k v rest
  end.

Definition keys {A} (kvs : list (string * A)) : list string := map fst kvs.

Definition is_str (s : string) (v : json) : bool :=
  match v with JStr s' => String.eqb s s' | _ => false end.

Definition is_substring (s t : string) : bool :=
  match String.index 0 s t with Some _ => true | None => false end.

(** [key in container], for a string [key] *)
Definition py_contains (key : string) (container : json) : result bool :=
  match container with
  | JObj kvs => Ok (match assoc key kvs with Some _ => true | None => false end)
  | JArr items => Ok (existsb (is_str key) items)
  | JStr s => Ok (is_substring key s)
  | JNull | JBool _ | JInt _ | JFloat _ => Raise TypeError
  end.

(** [container[key]], for a string [key] *)
Definition py_getitem (container : json) (key : string) : result json :=
  match container with
  | JObj kvs =>
      match assoc key kvs with Some v => Ok v | None => Raise KeyError end
  | _ => Raise TypeError
  end.

(** [container[key] = v], for a string [key] *)
Definition py_setitem (container : json) (key : string) (v : json)
  : result json :=
  match container with
  | JObj kvs => Ok (JObj (assoc_set key v kvs))
  | _ => Raise TypeError
  end.

(** [mapping.items()] *)
Definition py_items (mapping : json) : result (list (string * json)) :=
  match mapping with
  | JObj kvs => Ok kvs
  | _ => Raise AttributeError
  end.

(** *** Numbers

    A Python [float] is an IEEE 754 binary64; [spec_float] with precision
    53 and maximal exponent 1024 is the Standard Library's model of it. *)

Definition prec : Z := 53.
Definition emax : Z := 1024.

Definition fmul (a b : spec_float) : spec_float := SFmul prec emax a b.

(** [float(z)]: the nearest double, ties to even; an integer beyond the
    range of doubles raises [OverflowError]. *)
Definition float_of_int (z : Z) : result spec_float :=
  match binary_normalize prec emax z 0 false with
  | S754_infinity _ => Raise OverflowError
  | f => Ok f
  end.

(** [bool] is a subclass of [int]. *)
Definition as_int (v : json) : option Z :=
  match v with
  | JInt z => Some z
  | JBool b => Some (if b then 1 else 0)
  | _ => None
  end.

Definition str_repeat (s : string) (n : Z) : string :=
  String.concat "" (repeat s (Z.to_nat n)).

Definition list_repeat {A} (l : list A) (n : Z) : list A :=
  concat (repeat l (Z.to_nat n)).

(** [x * y] *)
Definition py_mul (x y : json) : result json :=
  match x, y with
  | JFloat a, JFloat b => Ok (JFloat (fmul a b))
  | JFloat a, (JInt _ | JBool _) =>
      match float_of_int (default 0 (as_int y)) with
      | Ok b => Ok (JFloat (fmul a b))
      | Raise e => Raise e
      end
  | (JInt _ | JBool _), JFloat b =>
      match float_of_int (default 0 (as_int x)) with
      | Ok a => Ok (JFloat (fmul a b))
      | Raise e => Raise e
      end
  | (JInt _ | JBool _), (JInt _ | JBool _) =>
      Ok (JInt (default 0 (as_int x) * default 0 (as_int y)))
  | JStr s, (JInt _ | JBool _) => Ok (JStr (str_repeat s (default 0 (as_int y))))
  | (JInt _ | JBool _), JStr s => Ok (JStr (str_repeat s (default 0 (as_int x))))
  | JArr l, (JInt _ | JBool _) => Ok (JArr (list_repeat l (default 0 (as_int y))))
  | (JInt _ | JBool _), JArr l => Ok (JArr (list_repeat l (default 0 (as_int x))))
  | _, _ => Raise TypeError
  end.

(** *** Printing a value

    Since CPython 3.11 the conversion of an [int] to decimal text is
    refused beyond [sys.get_int_max_str_digits()] digits, 4300 by default:
    [str], [repr] and [format] raise [ValueError].  The sign is not counted.
    A list or a dict prints the [repr] of what it holds.  Floats, strings,
    booleans and [None] always print. *)

Definition max_str_digits : nat := 4300.

(** The number of decimal digits of [z]. *)
Definition digits (z : Z) : nat := Decimal.nb_digits (N.to_uint (Z.abs_N z)).

Definition int_formats (z : Z) : bool := (digits z <=? max_str_digits)%nat.
Arguments int_formats : simpl never.

Fixpoint formats (v : json) : bool :=
  match v with
  | JInt z => int_formats z
  | JArr items => forallb formats items
  | JObj kvs => forallb (fun kv => formats (snd kv)) kvs
  | JNull | JBool _ | JFloat _ | JStr _ => true
  end.

(** [format(v)], as a replacement field [{v}] of an f-string evaluates
    it; the text itself is not modelled. *)
Definition py_format (v : json) : result unit :=
  if formats v then Ok tt else Raise ValueError.

End Py.

Import Py.

(* ===================================================================== *)
(** ** scale_weapon_damage.py: definitions *)
(* ===================================================================== *)

Module Rescaler.

(** What a path of the file system holds.  The script looks at nothing
    but the existence of paths and the text of regular files.  Permissions
    are not modelled: a regular file can be read and written. *)
Inductive node : Type :=
| File (content : string)
| Dir.

(** One constructor per [print] of the script, in the order of the
    source. *)
Inductive msg : Type :=
| Processing (file_path : string)
| Scaled (weapon_id : string) (old_damage new_damage : json)
| Updated (file_path : string)
| NoDamage (file_path : string)
| Banner
| BannerPurpose
| Rule
| ProcessingTheme (theme : string)
| WarnNoThemeDir (theme_dir : string)
| WarnNoFile (file_path : string)
| BlankRule
| Complete
| FilesUpdated (total : Z)
| Closing.

Record world : Type := World {
  files : gmap string node;
  stdout : list msg
}.

Definition print (m : msg) : M world unit :=
  fun w => (Ok tt, {| files := files w; stdout := (stdout w ++ [m])%list |}).

(** [os.path.exists(p)] *)
Definition path_exists (p : string) : M world bool :=
  fun w => (Ok (bool_decide (is_Some (files w !! p))), w).

(** [os.path.join(a, b)] on POSIX *)
Definition path_join (a b : string) : string :=
  if String.prefix "/" b then b
  else if (String.eqb a "" || String.eqb (String.substring (String.length a - 1) 1 a) "/")%bool
       then a ++ b
       else a ++ "/" ++ b.

(** [with open(p, 'r') as f: f.read()] *)
Definition open_read (p : string) : M world string :=
  fun w =>
    match files w !! p with
    | Some (File text) => (Ok text, w)
    | Some Dir => (Raise IsADirectoryError, w)
    | None => (Raise FileNotFoundError, w)
    end.

(** The file at [p] truncated and filled with [text]. *)
Definition write_text (p text : string) (w : world) : world :=
  {| files := <[p := File text]> (files w); stdout := stdout w |}.

(** Why [json.load] refuses the content of a file: it is no JSON text;
    it holds an integer literal of more than 4300 digits; it is nested too
    deeply for the parser; its bytes are no text in the encoding of the
    platform (the error is raised when the file is read). *)
Inductive refusal : Type :=
| Malformed
| LongInteger
| TooDeep
| Undecodable.

(** The exception [json.load] raises. *)
Definition refusal_exn (why : refusal) : exn :=
  match why with
  | Malformed => JSONDecodeError
  | LongInteger => ValueError
  | TooDeep => RecursionError
  | Undecodable => UnicodeDecodeError
  end.

Inductive loaded : Type :=
| Loaded (data : json)
| Refused (why : refusal).

Section Codec.

(** The [json] module of the Python library is not part of the
    repository: the parser and the printer are parameters.
    [json_loads text] is the document [json.load] builds from the content
    [text] of a file, or the reason why it refuses it; [json_dumps] is
    [json.dump] with [indent=2]. *)
Variable json_loads : string -> loaded.
Variable json_dumps : json -> string.

Definition json_load (text : string) : M world json :=
  match json_loads text with
  | Loaded data => ret data
  | Refused why => raise (refusal_exn why)
  end.

(** [with open(p, 'w') as f: json.dump(data, f, indent=2)].  The call is
    reached when both loops are over: every product has been printed, and
    the other integers of the document have been read by [json.load] from
    their decimal text, so none is an integer [json.dump] would refuse to
    write. *)
Definition json_dump (p : string) (data : json) : M world unit :=
  fun w => (Ok tt, write_text p (json_dumps data) w).

(** The body of [for weapon_id, weapon in ....items():].  The object
    [weapon] is updated where it stands; [json.load] builds a tree, no
    object is reachable twice, so the updated entry replaces the old
    one and nothing else changes.  The f-string of the [print] formats
    [old_damage], then [new_damage]; an integer of more than 4300 digits
    raises [ValueError] there, after the update in memory. *)
Definition scale_entry (scale_factor : json) (entry : string * json)
           (changes_made : bool) : M world ((string * json) * bool) :=
  let '(weapon_id, weapon) := entry in
  has_damage ← lift (py_contains "damage" weapon);
  if (has_damage : bool) then
    old_damage ← lift (py_getitem weapon "damage");
    new_damage ← lift (py_mul old_damage scale_factor);
    weapon' ← lift (py_setitem weapon "damage" new_damage);
    lift (py_format old_damage);;
    lift (py_format new_damage);;
    print (Scaled weapon_id old_damage new_damage);;
    mret ((weapon_id, weapon'), true)
  else mret ((weapon_id, weapon), changes_made).

Fixpoint scale_entries (scale_factor : json) (entries : list (string * json))
         (changes_made : bool) : M world (list (string * json) * bool) :=
  match entries with
  | [] => mret ([], changes_made)
  | entry :: rest =>
      '(entry', changes_made') ← scale_entry scale_factor entry changes_made;
      '(rest', changes_made'') ← scale_entries scale_factor rest changes_made';
      mret (entry' :: rest', changes_made'')
  end.

(** The document once the loop over [data[field]] is over: the script
    assigns nothing to [data[field]], the mapping it holds is the object
    whose entries the loop updated. *)
Definition with_entries (field : string) (entries : list (string * json))
           (data : json) : json :=
  match data with
  | JObj top => JObj (assoc_set field (JObj entries) top)
  | _ => data
  end.

(** [if field in data: for ... in data[field].items(): ...] *)
Definition scale_field (field : string) (scale_factor : json) (data : json)
           (changes_made : bool) : M world (json * bool) :=
  present ← lift (py_contains field data);
  if (present : bool) then
    mapping ← lift (py_getitem data field);
    entries ← lift (py_items mapping);
    '(entries', changes_made') ← scale_entries scale_factor entries changes_made;
    mret (with_entries field entries' data, changes_made')
  else mret (data, changes_made).

(** The in-memory part of [scale_weapon_damage]: both loops. *)
Definition scale_document (scale_factor : json) (data : json)
  : M world (json * bool) :=
  '(data1, changes1) ← scale_field "weapons" scale_factor data false;
  scale_field "meleeWeapons" scale_factor data1 changes1.

Definition scale_weapon_damage (file_path : string) (scale_factor : json)
  : M world bool :=
  print (Processing file_path);;
  text ← open_read file_path;
  data ← json_load text;
  '(data', changes_made) ← scale_document scale_factor data;
  (if (changes_made : bool) then
     json_dump file_path data';;
     print (Updated file_path)
   else print (NoDamage file_path));;
  mret changes_made.

Definition base_dir : string := "src/main/resources/data/themes".
Definition themes : list string := ["test_theme"; "civil_war"].
Definition weapon_files : list string :=
  ["ranged-weapons.json"; "melee-weapons.json"].

(** The default of [scale_factor]. *)
Definition default_factor : json := JInt 5.

(** [for weapon_file in weapon_files: ...] *)
Fixpoint scale_theme_files (theme_dir : string) (names : list string)
         (total_files_changed : Z) : M world Z :=
  match names with
  | [] => mret total_files_changed
  | weapon_file :: rest =>
      let file_path := path_join theme_dir weapon_file in
      present ← path_exists file_path;
      total' ← (if (present : bool) then
                  changed ← scale_weapon_damage file_path default_factor;
                  mret (if (changed : bool) then total_files_changed + 1
                        else total_files_changed)
                else
                  print (WarnNoFile file_path);;
                  mret total_files_changed);
      scale_theme_files theme_dir rest total'
  end.

(** [for theme in themes: ...] *)
Fixpoint scale_themes (names : list string) (total_files_changed : Z)
  : M world Z :=
  match names with
  | [] => mret total_files_changed
  | theme :: rest =>
      print (ProcessingTheme theme);;
      let theme_dir := path_join base_dir theme in
      present ← path_exists theme_dir;
      total' ← (if (present : bool) then
                  scale_theme_files theme_dir weapon_files total_files_changed
                else
                  print (WarnNoThemeDir theme_dir);;
                  mret total_files_changed);
      scale_themes rest total'
  end.

Definition main : M world unit :=
  print Banner;;
  print BannerPurpose;;
  print Rule;;
  total_files_changed ← scale_themes themes 0;
  print BlankRule;;
  print Complete;;
  print (FilesUpdated total_files_changed);;
  print Closing.

End Codec.

(** *** The documents of the specification

    Section 3 of the specification: a weapon document is an object with up
    to two mapping fields, [weapons] and [meleeWeapons]; each maps a weapon
    identifier to a weapon record, an object that may hold a numeric
    [damage]. *)

Definition fields : list string := ["weapons"; "meleeWeapons"].


Definition damage_of (record : json) : option json :=
  match record with
  | JObj kvs => assoc "damage" kvs
  | _ => None
  end.
















(** *** The loops as pure functions

    What the two loops compute on a document all of whose products are
    defined; the theorems below relate the script to them. *)





Definition has_damage (e : string * json) : bool :=
  match damage_of (snd e) with Some _ => true | None => false end.


Definition say (out : list msg) (w : world) : world :=
  {| files := files w; stdout := (stdout w ++ out)%list |}.

(** A computation that does nothing but print, and raises nothing but an
    [Exception]. *)
Definition quiet {A} (m : M world A) : Prop :=
  forall w, exists out,
    snd (m w) = say out w /\
    (forall e, fst (m w) = Raise e -> is_Exception e = true).

(** From [w] to [w']: no path appears or disappears, nothing outside [paths]
    changes, and the output only grows. *)
Definition touches (paths : list string) (w w' : world) : Prop :=
  (forall q, is_Some (files w' !! q) <-> is_Some (files w !! q)) /\
  (forall q, q ∉ paths -> files w' !! q = files w !! q) /\
  (exists out, stdout w' = (stdout w ++ out)%list).


(** The paths [main] may open under one theme directory. *)
Definition theme_paths (theme : string) : list string :=
  map (path_join (path_join base_dir theme)) weapon_files.

(** *** Sample documents *)

(** [{"weapons": {"pistol": {"damage": damage}}}] *)
Definition pistol (damage : json) : json :=
  JObj [("weapons", JObj [("pistol", JObj [("damage", damage)])])].


(** *** A codec for the examples

    [sample_dumps] prints a document on one line, with ['] where JSON has
    the double quote; [sample_loads] reads back the texts of four documents
    and refuses every other text as malformed. *)

Definition decimal (z : Z) : string := NilZero.string_of_int (Z.to_int z).

Definition sample_float (f : spec_float) : string :=
  match f with
  | S754_zero s => if s then "-0.0" else "0.0"
  | S754_infinity s => if s then "-Infinity" else "Infinity"
  | S754_nan => "NaN"
  | S754_finite s m e =>
      (if s then "-" else "") ++ decimal (Zpos m) ++ "p" ++ decimal e
  end.

Fixpoint sample_dumps (data : json) : string :=
  match data with
  | JNull => "null"
  | JBool b => if b then "true" else "false"
  | JInt z => decimal z
  | JFloat f => sample_float f
  | JStr s => "'" ++ s ++ "'"
  | JArr items => "[" ++ String.concat ", " (List.map sample_dumps items) ++ "]"
  | JObj kvs =>
      "{" ++ String.concat ", "
               (List.map (fun kv => let '(k, v) := kv in
                                    "'" ++ k ++ "': " ++ sample_dumps v) kvs)
          ++ "}"
  end.

Definition sample_documents : list json :=
  [pistol (JInt 10); pistol (JInt 50); pistol (JInt 0); JObj []].

Definition sample_loads (text : string) : loaded :=
  match List.find (fun data => String.eqb (sample_dumps data) text)
                  sample_documents with
  | Some data => Loaded data
  | None => Refused Malformed
  end.

Definition ranged_path : string :=
  path_join (path_join base_dir "test_theme") "ranged-weapons.json".

Definition nothing : world := {| files := ∅; stdout := [] |}.

(** One theme directory holding one weapon file. *)
Definition one_file (text : string) : world :=
  {| files := {[ path_join base_dir "test_theme" := Dir;
                 ranged_path := File text ]};
     stdout := [] |}.

(** *** More sample documents *)

(** [{"weapons": {"knife": {"damage": 3}, "club": {"damage": null}}}] *)
Definition knife_and_club : json :=
  JObj [("weapons", JObj [("knife", JObj [("damage", JInt 3)]);
                          ("club", JObj [("damage", JNull)])])].

(** [{"weapons": [1, 2]}] *)
Definition weapons_as_list : json := JObj [("weapons", JArr [JInt 1; JInt 2])].

(** [{"weapons": {"bow": {"damage": 4, "range": 30}},
      "meleeWeapons": {"axe": {"damage": 6}, "net": {}}}] *)
Definition armoury : json :=
  JObj [("weapons", JObj [("bow", JObj [("damage", JInt 4); ("range", JInt 30)])]);
        ("meleeWeapons", JObj [("axe", JObj [("damage", JInt 6)]);
                               ("net", JObj [])])].

(** [{"weapons": {"net": {"range": 3}, "rope": {}}, "notes": "no damage"}] *)
Definition unarmed : json :=
  JObj [("weapons", JObj [("net", JObj [("range", JInt 3)]); ("rope", JObj [])]);
        ("notes", JStr "no damage")].

Definition more_documents : list json :=
  [knife_and_club; weapons_as_list; armoury; unarmed; JInt 42;
   JArr [JStr "swords"]]%list.

(** Reads back the texts of the sample documents, old and new, and refuses
    every other text as malformed. *)
Definition more_loads (text : string) : loaded :=
  match List.find (fun data => String.eqb (sample_dumps data) text)
                  (sample_documents ++ more_documents) with
  | Some data => Loaded data
  | None => Refused Malformed
  end.



End Rescaler.

(* ===================================================================== *)
(** ** plans/move_cycle_to_completed.py: definitions *)
(* ===================================================================== *)

Module Relocator.

(** An entry of a directory: a regular file or a directory with its own
    entries.  The script reads no content. *)
Inductive node : Type :=
| File (content : string)
| Dir (entries : list (string * node)).

(** One constructor per [print] of the script. *)
Inductive msg : Type :=
| Usage
| UsageExample
| ErrRange
| ErrNotInteger
| ErrOther (e : exn)
| Moving (cycle_padded : string)
| NoFilesFound (pattern : string)
| Found (count : nat)
| WarnExists (name : string)
| Moved (name : string)
| ErrMoving (name : string) (e : exn)
| Completed (moved_count : Z).

(** The calls on the file system, as the script makes them. *)
Inductive syscall : Type :=
| Mkdir (name : string)
| Glob (pattern : string)
| Exists (name : string)
| Move (name : string).

(** [plans] is the directory of the script, in the order the system lists
    it; [completed] is one of its entries.  [locked] are the entries the
    system refuses to move ([shutil.move] raises [PermissionError] on them
    and leaves both directories as they are). *)
Record world : Type := World {
  plans : list (string * node);
  locked : list string;
  stdout : list msg;
  calls : list syscall
}.

Definition print (m : msg) : M world unit :=
  fun w => (Ok tt, {| plans := plans w; locked := locked w;
                      stdout := (stdout w ++ [m])%list; calls := calls w |}).

Definition log (c : syscall) (w : world) : world :=
  {| plans := plans w; locked := locked w; stdout := stdout w;
     calls := (calls w ++ [c])%list |}.

Definition with_plans (entries : list (string * node)) (w : world) : world :=
  {| plans := entries; locked := locked w; stdout := stdout w;
     calls := calls w |}.

(** *** Command line *)

(** The blanks [int] strips from an ASCII string: tab, newline, vertical
    tab, form feed, carriage return and space. *)
Definition is_space (c : ascii) : bool :=
  let n := nat_of_ascii c in
  ((9 <=? n) && (n <=? 13) || (n =? 32))%nat.

Definition is_digit (c : ascii) : bool :=
  let n := nat_of_ascii c in ((48 <=? n) && (n <=? 57))%nat.

Definition digit_value (c : ascii) : Z := Z.of_nat (nat_of_ascii c) - 48.

Fixpoint lstrip (cs : list ascii) : list ascii :=
  match cs with
  | c :: rest => if is_space c then lstrip rest else cs
  | [] => []
  end.

Definition strip (cs : list ascii) : list ascii :=
  rev (lstrip (rev (lstrip cs))).

(** Decimal digits, single underscores between them allowed; [after_digit]
    tells whether the character before was a digit. *)
Fixpoint digits_value (acc : Z) (after_digit : bool) (cs : list ascii)
  : option Z :=
  match cs with
  | [] => if after_digit then Some acc else None
  | c :: rest =>
      if is_digit c then digits_value (10 * acc + digit_value c) true rest
      else if Ascii.eqb c "_" then
             if after_digit then digits_value acc false rest else None
           else None
  end.

(** Every character of [s] is an ASCII character. *)
Definition ascii_only (s : string) : bool :=
  forallb (fun c => (nat_of_ascii c <? 128)%nat) (list_ascii_of_string s).

(** [int(s)] on an ASCII string: blanks around, a sign, digits.  Whatever
    [int] rejects raises [ValueError], and so does a string of more than
    4300 digits, leading zeros counted.  (On a string with other
    characters [int] also reads the decimal digits and the blanks of
    Unicode; that is not modelled, and the theorems that classify an
    argument are about ASCII arguments.) *)
Definition py_int (s : string) : result Z :=
  let cs := strip (list_ascii_of_string s) in
  let value :=
    match cs with
    | "+"%char :: rest => digits_value 0 false rest
    | "-"%char :: rest => Z.opp <$> digits_value 0 false rest
    | _ => digits_value 0 false cs
    end in
  match value with
  | Some n =>
      if (max_str_digits <? length (List.filter is_digit cs))%nat
      then Raise ValueError
      else Ok n
  | None => Raise ValueError
  end.

Definition decimal (n : Z) : string :=
  NilZero.string_of_uint (N.to_uint (Z.to_N n)).

Definition zfill (width : nat) (digits : string) : string :=
  String.concat "" (repeat "0" (width - String.length digits)) ++ digits.

(** [f"{n:04d}"] *)
Definition format_04d (n : Z) : string :=
  if (n <? 0)%Z then "-" ++ zfill 3 (decimal (- n)) else zfill 4 (decimal n).

(** *** File system *)

(** [fnmatch]: [*] stands for any run of characters, [?] for one.  The
    bracket sets of [fnmatch] are left out: the patterns of the script hold
    a literal prefix and one final [*]. *)
Fixpoint fnmatch (pattern name : string) : bool :=
  match pattern with
  | EmptyString =>
      match name with EmptyString => true | _ => false end
  | String p pattern' =>
      if Ascii.eqb p "*" then
        (fix star (n : string) : bool :=
           fnmatch pattern' n ||
           match n with
           | EmptyString => false
           | String _ n' => star n'
           end) name
      else
        match name with
        | EmptyString => false
        | String c name' =>
            (Ascii.eqb p "?" || Ascii.eqb p c) && fnmatch pattern' name'
        end
  end.

Definition remove (name : string) (entries : list (string * node))
  : list (string * node) :=
  List.filter (fun kv => negb (String.eqb name (fst kv))) entries.

(** [completed_dir.mkdir(exist_ok=True)] *)
Definition mkdir_exist_ok (name : string) : M world unit :=
  fun w =>
    let w := log (Mkdir name) w in
    match assoc name (plans w) with
    | Some (Dir _) => (Ok tt, w)
    | Some (File _) => (Raise FileExistsError, w)
    | None => (Ok tt, with_plans (plans w ++ [(name, Dir [])])%list w)
    end.

(** [script_dir.glob(pattern)]: the names of the entries that match. *)
Definition glob (pattern : string) : M world (list string) :=
  fun w =>
    (Ok (List.filter (fnmatch pattern) (keys (plans w))), log (Glob pattern) w).

(** The entry [name] of [completed], if there is one. *)
Definition archived (w : world) (name : string) : option node :=
  match assoc "completed" (plans w) with
  | Some (Dir entries) => assoc name entries
  | _ => None
  end.

(** [(completed_dir / name).exists()] *)
Definition destination_exists (name : string) : M world bool :=
  fun w =>
    (Ok (match archived w name with Some _ => true | None => false end),
     log (Exists name) w).

(** [shutil.move(script_dir / name, completed_dir / name)], the destination
    being free. *)
Definition shutil_move (name : string) : M world unit :=
  fun w =>
    let w := log (Move name) w in
    if bool_decide (name ∈ locked w) then (Raise PermissionError, w)
    else if String.eqb name "completed" then (Raise ShutilError, w)
    else
      match assoc name (plans w), assoc "completed" (plans w) with
      | Some entry, Some (Dir entries) =>
          (Ok tt,
           with_plans
             (assoc_set "completed" (Dir (entries ++ [(name, entry)])%list)
                        (remove name (plans w))) w)
      | _, _ => (Raise FileNotFoundError, w)
      end.

(** *** The script *)

(** The body of [for file_path in matching_files:], with its [try]. *)
Definition move_one (name : string) (moved_count : Z) : M world Z :=
  try_except
    (present ← destination_exists name;
     if (present : bool) then
       print (WarnExists name);;
       mret moved_count
     else
       shutil_move name;;
       print (Moved name);;
       mret (moved_count + 1))
    [(is_Exception, fun e => print (ErrMoving name e);; mret moved_count)].

Fixpoint move_all (names : list string) (moved_count : Z) : M world Z :=
  match names with
  | [] => mret moved_count
  | name :: rest =>
      moved_count' ← move_one name moved_count;
      move_all rest moved_count'
  end.

Definition cycle_pattern (cycle_number : Z) : string :=
  "DevCycle_2025_" ++ format_04d cycle_number ++ "*".

Definition move_cycle_files (cycle_number : Z) : M world unit :=
  mkdir_exist_ok "completed";;
  let pattern := cycle_pattern cycle_number in
  matching_files ← glob pattern;
  match matching_files with
  | [] => print (NoFilesFound pattern)
  | _ =>
      print (Found (length matching_files));;
      moved_count ← move_all matching_files 0;
      print (Completed moved_count)
  end.

Definition main (argv : list string) : M world unit :=
  if negb (length argv =? 2)%nat then
    print Usage;;
    print UsageExample;;
    raise (SystemExit 1)
  else
    try_except
      (cycle_number ← lift (py_int (nth 1 argv ""));
       if ((cycle_number <? 1)%Z || (cycle_number >? 9999)%Z)%bool then
         print ErrRange;;
         raise (SystemExit 1)
       else
         print (Moving (format_04d cycle_number));;
         move_cycle_files cycle_number)
      [(is_ValueError, fun _ => print ErrNotInteger;; raise (SystemExit 1));
       (is_Exception, fun e => print (ErrOther e);; raise (SystemExit 1))].

(** *** Notions for the theorems *)

(** The file name prefix of a cycle. *)
Definition cycle_prefix (cycle_number : Z) : string :=
  "DevCycle_2025_" ++ format_04d cycle_number.

(** The entry [name] of the directory of the script. *)
Definition pending (w : world) (name : string) : option node :=
  assoc name (plans w).

(** The names [glob] returns once [completed] is there. *)
Definition matching (cycle_number : Z) (w : world) : list string :=
  List.filter (fnmatch (cycle_pattern cycle_number)) (keys (plans w)).

(** The file will go: nothing of that name in [completed], and the system
    lets it move. *)
Definition movable (w : world) (name : string) : bool :=
  match archived w name with
  | Some _ => false
  | None => negb (bool_decide (name ∈ locked w))
  end.

(** The line the loop prints for [name]. *)
Definition verdict (w : world) (name : string) : msg :=
  match archived w name with
  | Some _ => WarnExists name
  | None =>
      if bool_decide (name ∈ locked w) then ErrMoving name PermissionError
      else Moved name
  end.

(** The calls the loop makes for [name]. *)
Definition probes (w : world) (name : string) : list syscall :=
  match archived w name with
  | Some _ => [Exists name]
  | None => [Exists name; Move name]
  end.

Definition say (out : list msg) (w : world) : world :=
  {| plans := plans w; locked := locked w;
     stdout := (stdout w ++ out)%list; calls := calls w |}.

Definition call (cs : list syscall) (w : world) : world :=
  {| plans := plans w; locked := locked w; stdout := stdout w;
     calls := (calls w ++ cs)%list |}.

(** [completed] is there, as a directory. *)
Definition has_archive (w : world) : Prop :=
  exists entries, assoc "completed" (plans w) = Some (Dir entries).

(** The lines [move_cycle_files] prints, from the world it starts in. *)
Definition transcript (cycle_number : Z) (w : world) : list msg :=
  match matching cycle_number w with
  | [] => [NoFilesFound (cycle_pattern cycle_number)]
  | _ :: _ =>
      Found (length (matching cycle_number w)) ::
      map (verdict w) (matching cycle_number w) ++
      [Completed (Z.of_nat (length (List.filter (movable w)
                                      (matching cycle_number w))))]
  end.

Definition is_Moved (m : msg) : bool :=
  match m with Moved _ => true | _ => false end.

(** No character that [fnmatch] reads as a wildcard. *)
Definition literal (s : string) : bool :=
  forallb (fun c => negb (Ascii.eqb c "*" || Ascii.eqb c "?" || Ascii.eqb c "["))
          (list_ascii_of_string s).

(** *** Sample directories *)

Definition cycle_13 : list (string * node) :=
  [("DevCycle_2025_0013.md", File "plan");
   ("DevCycle_2025_0013_bugs_01.md", File "bugs");
   ("DevCycle_2025_0014.md", File "next");
   ("move_cycle_to_completed.py", File "script")].

Definition desk (entries : list (string * node)) (pinned : list string) : world :=
  {| plans := entries; locked := pinned; stdout := []; calls := [] |}.

Definition script : string := "move_cycle_to_completed.py".
Definition plan_13 : string := "DevCycle_2025_0013.md".

(** The plan of cycle 13 cannot be moved. *)
Definition pinned_desk : world := desk cycle_13 [plan_13].

End Relocator.

(* ===================================================================== *)
(** ** Further notions for the two scripts *)
(* ===================================================================== *)

Module RescalerNotions.
Import Rescaler.

(** The four paths [main] may open. *)
Definition configured_paths : list string := flat_map theme_paths themes.







(** [None], a [bool] or a number at the top of a document. *)
Definition scalar (v : json) : bool :=
  match v with
  | JNull | JBool _ | JInt _ | JFloat _ => true
  | _ => false
  end.

Definition is_object (v : json) : bool :=
  match v with JObj _ => true | _ => false end.

(** The exceptions a call raises in the model: those of the loops, those
    of [json.load], and that of [open] on a directory. *)
Definition crashes : list exn :=
  [TypeError; AttributeError; OverflowError; ValueError; JSONDecodeError;
   RecursionError; UnicodeDecodeError; IsADirectoryError].

(** The exceptions the two loops can raise. *)
Definition loop_errors : list exn :=
  [TypeError; AttributeError; OverflowError; ValueError].

(** A computation raises nothing outside [allowed]. *)
Definition raises_within {A} (allowed : list exn) (m : M world A) : Prop :=
  forall w e, fst (m w) = Raise e -> e ∈ allowed.

End RescalerNotions.

Module RelocatorNotions.
Import Relocator.

(** From [w] to [w'] no file is lost or made up: the entries of [completed]
    are kept as they are; an entry of the source directory was there before,
    with the same content; an entry that was in the source directory is
    still there or is in [completed], with the same content; and outside
    [names] the source directory is what it was. *)
Definition safe (names : list string) (w w' : world) : Prop :=
  locked w' = locked w /\
  (forall x old, archived w x = Some old -> archived w' x = Some old) /\
  (forall x e, x <> "completed" ->
     pending w' x = Some e -> pending w x = Some e) /\
  (forall x e, x <> "completed" ->
     pending w x = Some e ->
     pending w' x = Some e \/ archived w' x = Some e) /\
  (forall x, x ∉ names -> x <> "completed" -> pending w' x = pending w x).

(** The arguments are right: one argument, an integer from 1 to 9999. *)
Definition cycle_of (argv : list string) : option Z :=
  if negb (length argv =? 2)%nat then None
  else match py_int (nth 1 argv "") with
       | Ok n => if ((n <? 1)%Z || (n >? 9999)%Z)%bool then None else Some n
       | Raise _ => None
       end.

(** [completed] is a regular file. *)
Definition blocked (w : world) : bool :=
  match pending w "completed" with Some (File _) => true | _ => false end.

(** [completed] is a regular file. *)
Definition blocked_desk : world :=
  desk (("completed", File "not a directory") :: cycle_13) [].

(** [completed] already holds a plan of cycle 13. *)
Definition busy_desk : world :=
  desk (("completed", Dir [(plan_13, File "old plan")]) :: cycle_13) [].

End RelocatorNotions.

(* ===================================================================== *)
(** ** Facts on association lists *)
(* ===================================================================== *)

Module PyFacts.

Lemma assoc_set_same {A} k (v : A) kvs :
  assoc k (assoc_set k v kvs) = Some v.
Proof.
  induction kvs as [|[k' v'] rest IH]; simpl.
  - now rewrite String.eqb_refl.
  - destruct (String.eqb k k') eqn:E; simpl; rewrite E; auto.
Qed.

Lemma assoc_set_other {A} k k' (v : A) kvs :
  k <> k' -> assoc k' (assoc_set k v kvs) = assoc k' kvs.
Proof.
  intros Hne. induction kvs as [|[k0 v0] rest IH]; simpl.
  - destruct (String.eqb k' k) eqn:E; auto.
    apply String.eqb_eq in E. congruence.
  - destruct (String.eqb k k0) eqn:E; simpl.
    + apply String.eqb_eq in E. subst k0.
      destruct (String.eqb k' k) eqn:E'; auto.
      apply String.eqb_eq in E'. congruence.
    + now rewrite IH.
Qed.





Lemma assoc_app {A} k (l1 l2 : list (string * A)) :
  assoc k (l1 ++ l2) =
  match assoc k l1 with Some v => Some v | None => assoc k l2 end.
Proof.
  induction l1 as [|[k0 v0] rest IH]; simpl; auto.
  destruct (String.eqb k k0); auto.
Qed.

Lemma assoc_keys {A} k (l : list (string * A)) :
  is_Some (assoc k l) <-> k ∈ keys l.
Proof.
  induction l as [|[k0 v0] rest IH]; simpl.
  - split; [intros [? ?]; discriminate|intros H; inversion H].
  - destruct (String.eqb k k0) eqn:E.
    + apply String.eqb_eq in E. subst. split; eauto. intros _. left.
    + apply String.eqb_neq in E. rewrite IH. split.
      * intros H. now right.
      * intros H. apply elem_of_cons in H as [H|H]; [congruence|auto].
Qed.

End PyFacts.

(* ===================================================================== *)
(** ** scale_weapon_damage.py: theorems *)
(* ===================================================================== *)

Module RescalerProofs.
Import Rescaler PyFacts.

(** *** Python's operators, on examples *)

Example py_mul_ints : py_mul (JInt 10) (JInt 5) = Ok (JInt 50).
Proof. reflexivity. Qed.

Example py_mul_bool : py_mul (JBool true) (JInt 5) = Ok (JInt 5).
Proof. reflexivity. Qed.

Example py_mul_str : py_mul (JStr "ab") (JInt 2) = Ok (JStr "abab").
Proof. reflexivity. Qed.

Example py_mul_None : py_mul JNull (JInt 5) = Raise TypeError.
Proof. reflexivity. Qed.

(** 0.5 * 5 = 2.5 *)
Example py_mul_float :
  py_mul (JFloat (S754_finite false 1 (-1))) (JInt 5)
  = Ok (JFloat (S754_finite false 5629499534213120 (-51))).
Proof. vm_compute. reflexivity. Qed.

Example py_mul_overflow :
  py_mul (JFloat (S754_finite false 1 (-1))) (JInt (2 ^ 1024))
  = Raise OverflowError.
Proof. vm_compute. reflexivity. Qed.

(** A document that is a number: ['weapons' in data] raises. *)
Example scale_document_on_number :
  fst (scale_document (JInt 5) (JInt 3) nothing) = Raise TypeError.
Proof. reflexivity. Qed.

(** A record that is a list holding ["damage"]: [weapon['damage']] raises. *)
Example scale_document_on_list_record :
  fst (scale_document (JInt 5)
         (JObj [("weapons", JObj [("pistol", JArr [JStr "damage"])])]) nothing)
  = Raise TypeError.
Proof. reflexivity. Qed.

(** A damage that is printed, with a product by 5 of more than 4300
    digits: the line for the pistol cannot be printed, the loop ends on
    [ValueError] after the line for the knife. *)
Lemma long_product_cannot_be_printed z :
  int_formats z = true -> int_formats (z * 5) = false ->
  scale_document (JInt 5)
    (JObj [("weapons",
            JObj [("knife", JObj [("damage", JInt 3)]);
                  ("pistol", JObj [("damage", JInt z)])])])
    nothing
  = (Raise ValueError, say [Scaled "knife" (JInt 3) (JInt 15)] nothing).
Proof.
  intros Hread Hproduct.
  unfold scale_document, scale_field, mbind, M_bind, bind, lift. simpl.
  unfold mbind, M_bind, bind, lift, py_format. simpl.
  rewrite Hread, Hproduct. reflexivity.
Qed.

(** *** Running the loops *)


Lemma say_nil w : say [] w = w.
Proof. destruct w. unfold say. simpl. now rewrite app_nil_r. Qed.

Lemma say_say a b w : say b (say a w) = say (a ++ b) w.
Proof. unfold say. simpl. now rewrite app_assoc. Qed.

Lemma files_say out w : files (say out w) = files w.
Proof. reflexivity. Qed.


Lemma print_say m w : print m w = (Ok tt, say [m] w).
Proof. reflexivity. Qed.



Section Loops.
Variable factor : json.




End Loops.







(** *** Weapon documents *)







(** *** What the loops do to the entries *)



(** *** The frame of a run *)














(** *** Running twice *)

























(** *** The loops on any document at all *)

Lemma quiet_ret {A} (a : A) : quiet (mret a).
Proof. intros w. exists []. split; [now rewrite say_nil|discriminate]. Qed.

Lemma quiet_print m : quiet (print m).
Proof. intros w. exists [m]. split; [reflexivity|discriminate]. Qed.

Lemma quiet_lift {A} (r : result A) :
  (forall e, r = Raise e -> is_Exception e = true) -> quiet (lift r).
Proof. intros H w. exists []. split; [now rewrite say_nil|exact H]. Qed.

Lemma quiet_bind {A B} (m : M world A) (k : A -> M world B) :
  quiet m -> (forall a, quiet (k a)) -> quiet (m ≫= k).
Proof.
  intros Hm Hk w. unfold mbind, M_bind, bind.
  destruct (Hm w) as (out & Hw & He).
  destruct (m w) as [[a|e] w1]; simpl in *; subst w1.
  - destruct (Hk a (say out w)) as (out' & Hw' & He').
    exists (out ++ out')%list. split; [|exact He'].
    rewrite Hw'. apply say_say.
  - exists out. split; [reflexivity|].
    intros e' E. injection E as <-. now apply He.
Qed.

Lemma py_contains_Exception key v e :
  py_contains key v = Raise e -> is_Exception e = true.
Proof. destruct v; simpl; intros; simplify_eq; reflexivity. Qed.

Lemma py_getitem_Exception v key e :
  py_getitem v key = Raise e -> is_Exception e = true.
Proof.
  destruct v; simpl; intros H; simplify_eq; try reflexivity.
  destruct (assoc key fields0); simplify_eq. reflexivity.
Qed.

Lemma py_setitem_Exception v key x e :
  py_setitem v key x = Raise e -> is_Exception e = true.
Proof. destruct v; simpl; intros; simplify_eq; reflexivity. Qed.

Lemma py_items_Exception v e :
  py_items v = Raise e -> is_Exception e = true.
Proof. destruct v; simpl; intros; simplify_eq; reflexivity. Qed.

Lemma float_of_int_Exception z e :
  float_of_int z = Raise e -> is_Exception e = true.
Proof.
  unfold float_of_int.
  destruct (binary_normalize prec emax z 0 false); intros; simplify_eq; reflexivity.
Qed.

Lemma py_mul_Exception x y e :
  py_mul x y = Raise e -> is_Exception e = true.
Proof.
  destruct x, y; simpl; intros H; simplify_eq; try reflexivity;
    match type of H with
    | context [float_of_int ?z] =>
        destruct (float_of_int z) eqn:E; simplify_eq;
        eapply float_of_int_Exception; eassumption
    end.
Qed.

Lemma py_format_Exception v e :
  py_format v = Raise e -> is_Exception e = true.
Proof. unfold py_format. destruct (formats v); intros; simplify_eq; reflexivity. Qed.

Lemma quiet_scale_entry factor entry changes :
  quiet (scale_entry factor entry changes).
Proof.
  destruct entry as [id record]. unfold scale_entry.
  apply quiet_bind; [apply quiet_lift, py_contains_Exception|].
  intros [|]; [|apply quiet_ret].
  apply quiet_bind; [apply quiet_lift, py_getitem_Exception|]. intros old.
  apply quiet_bind; [apply quiet_lift, py_mul_Exception|]. intros new.
  apply quiet_bind; [apply quiet_lift, py_setitem_Exception|]. intros weapon'.
  apply quiet_bind; [apply quiet_lift, py_format_Exception|]. intros _.
  apply quiet_bind; [apply quiet_lift, py_format_Exception|]. intros _.
  apply quiet_bind; [apply quiet_print|]. intros _. apply quiet_ret.
Qed.

Lemma quiet_scale_entries factor entries changes :
  quiet (scale_entries factor entries changes).
Proof.
  revert changes. induction entries as [|entry rest IH]; intros changes; simpl.
  - apply quiet_ret.
  - apply quiet_bind; [apply quiet_scale_entry|]. intros [entry' changes'].
    apply quiet_bind; [apply IH|]. intros [rest' changes'']. apply quiet_ret.
Qed.

Lemma quiet_scale_field field factor data changes :
  quiet (scale_field field factor data changes).
Proof.
  unfold scale_field.
  apply quiet_bind; [apply quiet_lift, py_contains_Exception|].
  intros [|]; [|apply quiet_ret].
  apply quiet_bind; [apply quiet_lift, py_getitem_Exception|]. intros mapping.
  apply quiet_bind; [apply quiet_lift, py_items_Exception|]. intros entries.
  apply quiet_bind; [apply quiet_scale_entries|]. intros [entries' changes'].
  apply quiet_ret.
Qed.

Lemma quiet_scale_document factor data : quiet (scale_document factor data).
Proof.
  unfold scale_document.
  apply quiet_bind; [apply quiet_scale_field|]. intros [data1 changes1].
  apply quiet_scale_field.
Qed.

(** *** One file *)

Section WithCodec.
Variable json_loads : string -> loaded.
Variable json_dumps : json -> string.

Local Abbreviation scale_weapon_damage := (scale_weapon_damage json_loads json_dumps).
Local Abbreviation main := (main json_loads json_dumps).








(** *** The frame of a call, whatever the file holds *)

Lemma touches_refl paths w : touches paths w w.
Proof.
  split; [|split]; auto. exists []. now rewrite app_nil_r.
Qed.

Lemma touches_say paths out w : touches paths w (say out w).
Proof. split; [|split]; auto. now exists out. Qed.

Lemma touches_trans paths w1 w2 w3 :
  touches paths w1 w2 -> touches paths w2 w3 -> touches paths w1 w3.
Proof.
  intros (D1 & F1 & out1 & O1) (D2 & F2 & out2 & O2). split; [|split].
  - intros q. now rewrite D2.
  - intros q Hq. now rewrite F2, F1.
  - exists (out1 ++ out2)%list. now rewrite O2, O1, app_assoc.
Qed.

Lemma touches_mono paths paths' w w' :
  paths ⊆ paths' -> touches paths w w' -> touches paths' w w'.
Proof.
  intros Hsub (D & F & O). split; [|split]; auto.
Qed.

Lemma touches_seq p1 p2 paths w1 w2 w3 :
  p1 ⊆ paths -> p2 ⊆ paths ->
  touches p1 w1 w2 -> touches p2 w2 w3 -> touches paths w1 w3.
Proof.
  intros H1 H2 T1 T2.
  apply (touches_trans paths w1 w2 w3);
    [apply (touches_mono p1)|apply (touches_mono p2)]; assumption.
Qed.

Lemma touches_print paths out w w' :
  files w' = files w -> stdout w' = (stdout w ++ out)%list ->
  touches paths w w'.
Proof.
  intros Hf Ho. split; [|split]; [intros q|intros q _|exists out; auto];
    now rewrite Hf.
Qed.

Lemma touches_write path text out w w' :
  is_Some (files w !! path) ->
  files w' = <[path := File text]> (files w) ->
  stdout w' = (stdout w ++ out)%list ->
  touches [path] w w'.
Proof.
  intros Hsome Hf Ho. split; [|split].
  - intros q. rewrite Hf. destruct (decide (q = path)) as [->|Hne].
    + rewrite lookup_insert_eq. split; eauto.
    + now rewrite lookup_insert_ne.
  - intros q Hq. rewrite Hf. rewrite lookup_insert_ne; auto.
    intros ->. apply Hq. set_solver.
  - now exists out.
Qed.

Lemma scale_weapon_damage_effect path factor w :
  touches [path] w (snd (scale_weapon_damage path factor w)) /\
  (forall e, fst (scale_weapon_damage path factor w) = Raise e ->
     is_Exception e = true /\
     files (snd (scale_weapon_damage path factor w)) = files w).
Proof.
  unfold scale_weapon_damage, Rescaler.scale_weapon_damage.
  unfold mbind, M_bind, bind. rewrite print_say.
  unfold open_read. rewrite files_say.
  destruct (files w !! path) as [[text|]|] eqn:Hfile; simpl;
    try (split; [apply touches_say|intros e [= <-]; auto]).
  unfold json_load. destruct (json_loads text) as [data|why]; simpl;
    [|split; [apply touches_say
             |intros e [= <-]; split; [now destruct why|reflexivity]]].
  destruct (quiet_scale_document factor data (say [Processing path] w))
    as (out & Hw & He).
  destruct (scale_document factor data (say [Processing path] w))
    as [[[data' changed]|e] w2]; simpl in *; subst w2.
  - destruct changed; simpl; (split; [|discriminate]).
    + eapply touches_write; simpl; [eauto|reflexivity|].
      rewrite <- !app_assoc. reflexivity.
    + eapply touches_print; simpl; [reflexivity|].
      rewrite <- !app_assoc. reflexivity.
  - split; [|intros e' [= <-]; auto].
    eapply touches_print; simpl; [reflexivity|].
    rewrite <- !app_assoc. reflexivity.
Qed.


Lemma malformed_raises path factor text w :
  files w !! path = Some (File text) ->
  json_loads text = Refused Malformed ->
  scale_weapon_damage path factor w =
    (Raise JSONDecodeError, say [Processing path] w).
Proof.
  intros Hfile Hload.
  unfold scale_weapon_damage, Rescaler.scale_weapon_damage.
  unfold mbind, M_bind, bind. rewrite print_say.
  unfold open_read. rewrite files_say, Hfile.
  unfold json_load. now rewrite Hload.
Qed.

(** *** The loops of [main] *)

Lemma scale_theme_files_cons dir name rest total w :
  scale_theme_files json_loads json_dumps dir (name :: rest) total w =
    if bool_decide (is_Some (files w !! path_join dir name))
    then match scale_weapon_damage (path_join dir name) default_factor w with
         | (Ok changed, w1) =>
             scale_theme_files json_loads json_dumps dir rest
               (if changed then total + 1 else total) w1
         | (Raise e, w1) => (Raise e, w1)
         end
    else scale_theme_files json_loads json_dumps dir rest total
           (say [WarnNoFile (path_join dir name)] w).
Proof.
  cbn [scale_theme_files]. unfold mbind, M_bind, bind, path_exists.
  destruct (bool_decide (is_Some (files w !! path_join dir name))).
  - destruct (scale_weapon_damage (path_join dir name) default_factor w)
      as [[changed|e] w1]; reflexivity.
  - reflexivity.
Qed.

Lemma scale_theme_files_effect dir names total w :
  touches (map (path_join dir) names) w
          (snd (scale_theme_files json_loads json_dumps dir names total w)) /\
  (forall e, fst (scale_theme_files json_loads json_dumps dir names total w) = Raise e ->
     is_Exception e = true).
Proof.
  revert total w. induction names as [|name rest IH]; intros total w.
  - simpl. split; [apply touches_refl|discriminate].
  - rewrite scale_theme_files_cons.
    case_bool_decide as Hsome.
    + destruct (scale_weapon_damage_effect (path_join dir name) default_factor w)
        as [T E].
      destruct (scale_weapon_damage (path_join dir name) default_factor w)
        as [[changed|e] w1]; simpl in *.
      * destruct (IH (if changed then total + 1 else total) w1) as [T' E'].
        split; [|exact E'].
        eapply touches_seq; [| |exact T|exact T']; set_solver.
      * split; [eapply touches_mono; [|exact T]; set_solver|].
        intros e' [= <-]. now apply E.
    + destruct (IH total (say [WarnNoFile (path_join dir name)] w)) as [T' E'].
      split; [|exact E'].
      eapply touches_seq; [| |apply (touches_say [])|exact T']; set_solver.
Qed.

Lemma theme_files_abort dir names total w file text :
  file ∈ names ->
  (forall n, n ∈ names -> path_join dir n = path_join dir file -> n = file) ->
  files w !! path_join dir file = Some (File text) ->
  json_loads text = Refused Malformed ->
  exists e w',
    scale_theme_files json_loads json_dumps dir names total w = (Raise e, w') /\
    is_Exception e = true /\
    files w' !! path_join dir file = Some (File text).
Proof.
  revert total w. induction names as [|name rest IH]; intros total w Hin Hinj Hfile Hload.
  - set_solver.
  - rewrite scale_theme_files_cons.
    destruct (decide (name = file)) as [->|Hne].
    + rewrite bool_decide_eq_true_2 by eauto.
      rewrite (malformed_raises _ _ text) by assumption.
      exists JSONDecodeError. eexists. split; [reflexivity|]. split; auto.
    + assert (Hrest : file ∈ rest) by set_solver.
      assert (Hq : path_join dir file ∉ [path_join dir name]).
      { intros H. apply list_elem_of_singleton in H. apply Hne.
        apply Hinj; [set_solver|congruence]. }
      assert (Hinj' : forall n, n ∈ rest ->
                path_join dir n = path_join dir file -> n = file)
        by (intros n Hn; apply Hinj; set_solver).
      case_bool_decide as Hsome.
      * destruct (scale_weapon_damage_effect (path_join dir name) default_factor w)
          as [(_ & F & _) E].
        destruct (scale_weapon_damage (path_join dir name) default_factor w)
          as [[changed|e] w1]; simpl in *.
        -- apply IH; auto. now rewrite F.
        -- exists e, w1. split; [reflexivity|]. split; [now apply E|].
           now rewrite F.
      * apply IH; auto.
Qed.


Lemma scale_themes_cons theme rest total w :
  scale_themes json_loads json_dumps (theme :: rest) total w =
    if bool_decide (is_Some (files w !! path_join base_dir theme))
    then match scale_theme_files json_loads json_dumps
                 (path_join base_dir theme) weapon_files total
                 (say [ProcessingTheme theme] w) with
         | (Ok total', w1) => scale_themes json_loads json_dumps rest total' w1
         | (Raise e, w1) => (Raise e, w1)
         end
    else scale_themes json_loads json_dumps rest total
           (say [ProcessingTheme theme; WarnNoThemeDir (path_join base_dir theme)] w).
Proof.
  cbn [scale_themes]. unfold mbind, M_bind, bind, path_exists.
  rewrite print_say, files_say.
  destruct (bool_decide (is_Some (files w !! path_join base_dir theme))).
  - destruct (scale_theme_files _ _ _ _ _ _) as [[total'|e] w1]; reflexivity.
  - rewrite print_say, say_say. reflexivity.
Qed.


Lemma themes_abort names total w theme file text :
  theme ∈ names -> file ∈ weapon_files ->
  (forall t n, t ∈ names -> n ∈ weapon_files ->
     path_join (path_join base_dir t) n = path_join (path_join base_dir theme) file ->
     t = theme /\ n = file) ->
  is_Some (files w !! path_join base_dir theme) ->
  files w !! path_join (path_join base_dir theme) file = Some (File text) ->
  json_loads text = Refused Malformed ->
  exists e w',
    scale_themes json_loads json_dumps names total w = (Raise e, w') /\
    is_Exception e = true /\
    files w' !! path_join (path_join base_dir theme) file = Some (File text).
Proof.
  revert total w.
  induction names as [|t rest IH]; intros total w Hin Hfile Hinj Hdir Htext Hload.
  - set_solver.
  - rewrite scale_themes_cons.
    assert (Hinj' : forall t' n, t' ∈ rest -> n ∈ weapon_files ->
              path_join (path_join base_dir t') n =
              path_join (path_join base_dir theme) file -> t' = theme /\ n = file)
      by (intros t' n Ht'; apply Hinj; set_solver).
    destruct (decide (t = theme)) as [->|Hne].
    + rewrite bool_decide_eq_true_2 by assumption.
      destruct (theme_files_abort (path_join base_dir theme) weapon_files total
                  (say [ProcessingTheme theme] w) file text)
        as (e & w' & -> & He & Hw'); auto.
      * intros n Hn E. apply (Hinj theme n); auto; set_solver.
      * exists e, w'. auto.
    + assert (Hrest : theme ∈ rest) by set_solver.
      case_bool_decide as Hsome.
      * destruct (scale_theme_files_effect (path_join base_dir t) weapon_files total
                    (say [ProcessingTheme t] w)) as [(D & F & _) E].
        destruct (scale_theme_files _ _ _ _ _ _) as [[total'|e] w1]; cbn [fst snd] in *.
        -- apply IH; auto.
           ++ now apply D.
           ++ rewrite F; auto. intros Hq. apply list_elem_of_fmap in Hq as (n & Hq & Hn).
              destruct (Hinj t n) as [? _]; auto; set_solver.
        -- exists e, w1. split; [reflexivity|]. split; [now apply E|].
           rewrite F; auto. intros Hq. apply list_elem_of_fmap in Hq as (n & Hq & Hn).
           destruct (Hinj t n) as [? _]; auto; set_solver.
      * apply IH; auto.
Qed.


Lemma main_run w :
  main w =
    match scale_themes json_loads json_dumps themes 0
            (say [Banner; BannerPurpose; Rule] w) with
    | (Ok total, w1) =>
        (Ok tt, say [BlankRule; Complete; FilesUpdated total; Closing] w1)
    | (Raise e, w1) => (Raise e, w1)
    end.
Proof.
  unfold main, Rescaler.main. unfold mbind, M_bind, bind.
  rewrite !print_say, !say_say. simpl app.
  destruct (scale_themes _ _ _ _ _) as [[total|e] w1]; [|reflexivity].
  rewrite !print_say, !say_say. reflexivity.
Qed.


Lemma configured_paths_inj t n theme file :
  t ∈ themes -> n ∈ weapon_files -> theme ∈ themes -> file ∈ weapon_files ->
  path_join (path_join base_dir t) n = path_join (path_join base_dir theme) file ->
  t = theme /\ n = file.
Proof.
  unfold themes, weapon_files. intros Ht Hn Htheme Hfile.
  repeat match goal with
         | H : _ ∈ _ :: _ |- _ => apply elem_of_cons in H as [->|H]
         | H : _ ∈ [] |- _ => now apply elem_of_nil in H
         end;
    vm_compute; intros E; first [split; reflexivity | discriminate E].
Qed.

(** C7: [json.load] raises on a malformed file and [scale_weapon_damage]
    lets the error through: nothing is written, the file holds what it held.
    In [main] nothing catches the error either: when the file is one of the
    configured ones, in a theme directory that exists, the run ends on an
    exception (exit status 1) and the file still holds its text. *)
Theorem malformed_json_propagates path factor text w :
  files w !! path = Some (File text) ->
  json_loads text = Refused Malformed ->
  (exists w',
     scale_weapon_damage path factor w = (Raise JSONDecodeError, w') /\
     files w' = files w) /\
  (forall theme file,
     theme ∈ themes -> file ∈ weapon_files ->
     path = path_join (path_join base_dir theme) file ->
     is_Some (files w !! path_join base_dir theme) ->
     exists e w',
       main w = (Raise e, w') /\
       is_Exception e = true /\
       exit_code (fst (main w)) = 1 /\
       files w' !! path = Some (File text)).
Proof.
  intros Hfile Hload. split.
  - eexists. split; [now apply (malformed_raises path factor text)|reflexivity].
  - intros theme file Htheme Hname -> Hdir.
    destruct (themes_abort themes 0 (say [Banner; BannerPurpose; Rule] w)
                theme file text) as (e & w' & Hrun & He & Hw'); auto.
    { intros t n Ht Hn. now apply configured_paths_inj. }
    rewrite main_run, Hrun. exists e, w'.
    repeat split; auto. destruct e; try reflexivity; discriminate.
Qed.


End WithCodec.


(** *** The theorems at work *)




Lemma malformed_json_propagates_witness :
  (exists w',
     scale_weapon_damage sample_loads sample_dumps ranged_path (JInt 5)
       (one_file "{") = (Raise JSONDecodeError, w') /\
     files w' = files (one_file "{")) /\
  (forall theme file,
     theme ∈ themes -> file ∈ weapon_files ->
     ranged_path = path_join (path_join base_dir theme) file ->
     is_Some (files (one_file "{") !! path_join base_dir theme) ->
     exists e w',
       main sample_loads sample_dumps (one_file "{") = (Raise e, w') /\
       is_Exception e = true /\
       exit_code (fst (main sample_loads sample_dumps (one_file "{"))) = 1 /\
       files w' !! ranged_path = Some (File "{")).
Proof.
  apply (malformed_json_propagates sample_loads sample_dumps ranged_path
           (JInt 5) "{" (one_file "{")).
  - vm_compute. reflexivity.
  - vm_compute. reflexivity.
Defined.



(** Twice on a file: the pistol of damage 10 ends with damage 250. *)
Example pistol_file_twice :
  exists w1 w2,
    scale_weapon_damage sample_loads sample_dumps ranged_path (JInt 5)
      (one_file (sample_dumps (pistol (JInt 10)))) = (Ok true, w1) /\
    scale_weapon_damage sample_loads sample_dumps ranged_path (JInt 5) w1
      = (Ok true, w2) /\
    files w2 !! ranged_path = Some (File (sample_dumps (pistol (JInt 250)))).
Proof.
  do 2 eexists. split; [vm_compute; reflexivity|].
  split; vm_compute; reflexivity.
Qed.


End RescalerProofs.

(* ===================================================================== *)
(** ** plans/move_cycle_to_completed.py: theorems *)
(* ===================================================================== *)

Module RelocatorProofs.
Import Relocator PyFacts.

(** *** The command line, on examples *)

Example py_int_plain : py_int "13" = Ok 13.
Proof. reflexivity. Qed.

Example py_int_blanks_and_zeros : py_int "  0013 " = Ok 13.
Proof. reflexivity. Qed.

Example py_int_signs : py_int "-5" = Ok (-5) /\ py_int "+7" = Ok 7.
Proof. split; reflexivity. Qed.

Example py_int_underscores :
  py_int "1_000" = Ok 1000 /\ py_int "1__0" = Raise ValueError /\
  py_int "_1" = Raise ValueError /\ py_int "1_" = Raise ValueError.
Proof. repeat split; reflexivity. Qed.

Example py_int_rejects :
  py_int "" = Raise ValueError /\ py_int "thirteen" = Raise ValueError /\
  py_int "1.5" = Raise ValueError /\ py_int "1 3" = Raise ValueError /\
  py_int "- 1" = Raise ValueError.
Proof. repeat split; reflexivity. Qed.

(** The control characters 0x1c to 0x1f are no blanks for [int], and the
    blank after a number is stripped like the one before. *)
Example py_int_control_characters :
  py_int (String (ascii_of_nat 31) "13") = Raise ValueError /\
  py_int (String (ascii_of_nat 28) "0") = Raise ValueError /\
  py_int (String (ascii_of_nat 11) "13") = Ok 13 /\
  py_int ("13" ++ String (ascii_of_nat 10) "") = Ok 13.
Proof. repeat split; reflexivity. Qed.

(** More than 4300 digits are refused, zeros though they may be. *)
Lemma py_int_digit_limit s :
  (4300 < length (List.filter is_digit (strip (list_ascii_of_string s))))%nat ->
  py_int s = Raise ValueError.
Proof.
  intros Hlong. unfold py_int. cbv zeta.
  destruct (match strip _ with [] => _ | _ => _ end); [|reflexivity].
  apply Nat.ltb_lt in Hlong. unfold max_str_digits. now rewrite Hlong.
Qed.

Example format_04d_pads :
  format_04d 13 = "0013" /\ format_04d 9999 = "9999" /\
  format_04d 12345 = "12345" /\ format_04d (-5) = "-005".
Proof. repeat split; reflexivity. Qed.

Example cycle_13_matches :
  matching 13 (desk cycle_13 []) =
    ["DevCycle_2025_0013.md"; "DevCycle_2025_0013_bugs_01.md"].
Proof. reflexivity. Qed.

(** *** Patterns *)

Lemma fnmatch_any name : fnmatch "*" name = true.
Proof.
  induction name as [|c name IH]; [reflexivity|].
  simpl in *. exact IH.
Qed.

Lemma fnmatch_prefix p name :
  literal p = true -> fnmatch (p ++ "*") name = String.prefix p name.
Proof.
  revert name. induction p as [|c p IH]; intros name Hlit.
  - rewrite fnmatch_any. now destruct name.
  - unfold literal in Hlit. simpl in Hlit.
    apply andb_true_iff in Hlit as [Hc Hp].
    rewrite !negb_orb in Hc. apply andb_true_iff in Hc as [Hc _].
    apply andb_true_iff in Hc as [Hstar Hquery].
    apply negb_true_iff in Hstar, Hquery.
    change (String c p ++ "*") with (String c (p ++ "*")).
    destruct name as [|c' name]; simpl; rewrite Hstar; [reflexivity|].
    rewrite Hquery. simpl. rewrite (IH name Hp).
    destruct (ascii_dec c c') as [->|Hne].
    + now rewrite Ascii.eqb_refl.
    + apply Ascii.eqb_neq in Hne. now rewrite Hne.
Qed.

Lemma cycle_prefix_literal n :
  1 <= n <= 9999 -> literal (cycle_prefix n) = true.
Proof.
  intros Hn.
  assert (H : forallb (fun k => literal (cycle_prefix k)) (seqZ 1 9999) = true)
    by (vm_compute; reflexivity).
  rewrite forallb_forall in H. apply H.
  apply list_elem_of_In, elem_of_seqZ. lia.
Qed.

Lemma matching_prefix n w :
  1 <= n <= 9999 ->
  matching n w = List.filter (String.prefix (cycle_prefix n)) (keys (plans w)).
Proof.
  intros Hn. unfold matching. apply filter_ext. intros name.
  change (cycle_pattern n) with (cycle_prefix n ++ "*").
  apply fnmatch_prefix. now apply cycle_prefix_literal.
Qed.

Lemma completed_no_match n : fnmatch (cycle_pattern n) "completed" = false.
Proof. reflexivity. Qed.

(** *** One file *)

Lemma move_one_run name count w :
  move_one name count w =
    let w1 := log (Exists name) w in
    let w2 := log (Move name) w1 in
    match archived w name with
    | Some _ => (Ok count, say [WarnExists name] w1)
    | None =>
        if bool_decide (name ∈ locked w) then
          (Ok count, say [ErrMoving name PermissionError] w2)
        else if String.eqb name "completed" then
          (Ok count, say [ErrMoving name ShutilError] w2)
        else
          match assoc name (plans w), assoc "completed" (plans w) with
          | Some entry, Some (Dir entries) =>
              (Ok (count + 1),
               say [Moved name]
                 (with_plans
                    (assoc_set "completed" (Dir (entries ++ [(name, entry)]))
                               (remove name (plans w))) w2))
          | _, _ => (Ok count, say [ErrMoving name FileNotFoundError] w2)
          end
    end.
Proof.
  unfold move_one, try_except, destination_exists, shutil_move.
  unfold mbind, M_bind, bind, mret, M_ret, ret. simpl.
  change (archived (log (Exists name) w) name) with (archived w name).
  destruct (archived w name); [reflexivity|]. simpl.
  destruct (bool_decide (name ∈ locked w)); [reflexivity|].
  destruct (String.eqb name "completed"); [reflexivity|].
  destruct (assoc name (plans w)) as [entry|]; [|reflexivity].
  destruct (assoc "completed" (plans w)) as [[content|entries]|]; reflexivity.
Qed.

Lemma assoc_remove name x (entries : list (string * node)) :
  assoc x (remove name entries) =
  if String.eqb name x then None else assoc x entries.
Proof.
  induction entries as [|[k v] rest IH]; simpl.
  - now destruct (String.eqb name x).
  - destruct (String.eqb name k) eqn:Ek; simpl.
    + apply String.eqb_eq in Ek. subst k. rewrite IH.
      rewrite (String.eqb_sym x name). now destruct (String.eqb name x).
    + rewrite IH. destruct (String.eqb x k) eqn:Ex; auto.
      apply String.eqb_eq in Ex. subst k. now rewrite Ek.
Qed.

Lemma move_one_spec name count w :
  has_archive w -> name <> "completed" -> is_Some (pending w name) ->
  exists w',
    move_one name count w =
      (Ok (if movable w name then count + 1 else count), w') /\
    has_archive w' /\
    locked w' = locked w /\
    stdout w' = (stdout w ++ [verdict w name])%list /\
    calls w' = (calls w ++ probes w name)%list /\
    (forall x, x <> name -> x <> "completed" ->
       pending w' x = pending w x /\ archived w' x = archived w x) /\
    (if movable w name
     then pending w' name = None /\ archived w' name = pending w name
     else pending w' name = pending w name /\ archived w' name = archived w name).
Proof.
  intros [entries Harch] Hne [entry Hentry]. rewrite move_one_run.
  unfold movable, verdict, probes. cbv zeta.
  destruct (archived w name) as [old|] eqn:Hold.
  { eexists. split; [reflexivity|]. unfold has_archive. simpl.
    repeat split; eauto. }
  destruct (bool_decide (name ∈ locked w)) eqn:Hlock; simpl.
  { eexists. split; [reflexivity|]. unfold has_archive. simpl.
    rewrite <- app_assoc. repeat split; eauto. }
  apply String.eqb_neq in Hne as Hneb. rewrite Hneb.
  unfold pending in Hentry. rewrite Hentry, Harch.
  eexists. split; [reflexivity|].
  unfold has_archive, pending, archived in *. simpl. rewrite Harch in Hold.
  rewrite assoc_set_same, ?Harch.
  split; [eauto|]. split; [reflexivity|]. split; [reflexivity|].
  split; [now rewrite <- app_assoc|]. split.
  - intros x Hx Hc. rewrite assoc_set_other by congruence.
    rewrite assoc_remove, assoc_app.
    assert (E : String.eqb name x = false) by (apply String.eqb_neq; congruence).
    rewrite E. split; [reflexivity|].
    destruct (assoc x entries); [reflexivity|]. simpl.
    rewrite String.eqb_sym, E. reflexivity.
  - rewrite assoc_set_other by congruence.
    rewrite assoc_remove, String.eqb_refl, assoc_app, Hold. simpl.
    rewrite String.eqb_refl. split; [reflexivity|]. now rewrite Hentry.
Qed.

(** *** The loop *)

Lemma verdicts_agree w w' names :
  locked w' = locked w ->
  (forall x, x ∈ names -> archived w' x = archived w x) ->
  List.filter (movable w') names = List.filter (movable w) names /\
  map (verdict w') names = map (verdict w) names /\
  flat_map (probes w') names = flat_map (probes w) names.
Proof.
  intros Hlock Hall.
  assert (Hin : forall x, In x names -> archived w' x = archived w x)
    by (intros x Hx; apply Hall; now apply list_elem_of_In).
  split; [|split].
  - apply filter_ext_in. intros x Hx. unfold movable.
    now rewrite (Hin x Hx), Hlock.
  - apply map_ext_in. intros x Hx. unfold verdict.
    now rewrite (Hin x Hx), Hlock.
  - rewrite !flat_map_concat_map. f_equal.
    apply map_ext_in. intros x Hx. unfold probes. now rewrite (Hin x Hx).
Qed.

Lemma move_all_run names count w :
  has_archive w -> NoDup names -> "completed" ∉ names ->
  (forall name, name ∈ names -> is_Some (pending w name)) ->
  exists w',
    move_all names count w =
      (Ok (count + Z.of_nat (length (List.filter (movable w) names))), w') /\
    has_archive w' /\
    locked w' = locked w /\
    stdout w' = (stdout w ++ map (verdict w) names)%list /\
    calls w' = (calls w ++ flat_map (probes w) names)%list /\
    (forall x, x ∉ names -> x <> "completed" ->
       pending w' x = pending w x /\ archived w' x = archived w x) /\
    (forall name, name ∈ names ->
       if movable w name
       then pending w' name = None /\ archived w' name = pending w name
       else pending w' name = pending w name /\
            archived w' name = archived w name).
Proof.
  revert count w.
  induction names as [|name rest IH]; intros count w Harch Hnd Hc Hpend.
  - exists w. simpl. rewrite Z.add_0_r, !app_nil_r.
    repeat split; auto. intros name H. inversion H.
  - apply NoDup_cons in Hnd as [Hfresh Hnd].
    assert (Hname : name <> "completed") by set_solver.
    destruct (move_one_spec name count w Harch Hname)
      as (w1 & Hrun & Harch1 & Hlock1 & Hout1 & Hcalls1 & Hframe1 & Hself1);
      [apply Hpend; set_solver|].
    assert (Hrest : forall x, x ∈ rest ->
              pending w1 x = pending w x /\ archived w1 x = archived w x).
    { intros x Hx. apply Hframe1; set_solver. }
    destruct (verdicts_agree w w1 rest Hlock1) as (E1 & E2 & E3);
      [intros x Hx; now apply Hrest|].
    destruct (IH (if movable w name then count + 1 else count) w1)
      as (w' & Hrun' & Harch' & Hlock' & Hout' & Hcalls' & Hframe' & Hself');
      auto; [set_solver| |].
    { intros x Hx. destruct (Hrest x Hx) as [-> _]. apply Hpend. set_solver. }
    exists w'. cbn [move_all]. unfold mbind, M_bind, bind. rewrite Hrun, Hrun'.
    rewrite E1 in *. rewrite E2 in *. rewrite E3 in *.
    split; [|split; [|split; [|split; [|split; [|split]]]]]; auto.
    + f_equal. f_equal. simpl. destruct (movable w name); simpl; lia.
    + congruence.
    + rewrite Hout', Hout1. simpl. now rewrite <- app_assoc.
    + rewrite Hcalls', Hcalls1. simpl. now rewrite <- app_assoc.
    + intros x Hx Hxc.
      destruct (Hframe' x) as [-> ->]; [set_solver|auto|].
      apply Hframe1; set_solver.
    + intros x Hx. apply elem_of_cons in Hx as [->|Hx].
      * destruct (Hframe' name Hfresh Hname) as [-> ->]. exact Hself1.
      * specialize (Hself' x Hx). destruct (Hrest x Hx) as [Ep Ea].
        assert (Em : movable w1 x = movable w x)
          by (unfold movable; now rewrite Ea, Hlock1).
        rewrite Em, Ep, Ea in Hself'. exact Hself'.
Qed.

Lemma move_all_total names count w :
  has_archive w ->
  exists count' w' more,
    move_all names count w = (Ok count', w') /\
    has_archive w' /\
    calls w' = (calls w ++ more)%list.
Proof.
  revert count w. induction names as [|name rest IH]; intros count w Harch.
  - exists count, w, []. simpl. now rewrite app_nil_r.
  - cbn [move_all]. unfold mbind, M_bind, bind. rewrite move_one_run. cbv zeta.
    assert (Hstep : exists c1 w1 more1,
      (match archived w name with
       | Some _ => (Ok count, say [WarnExists name] (log (Exists name) w))
       | None =>
           if bool_decide (name ∈ locked w) then
             (Ok count, say [ErrMoving name PermissionError]
                          (log (Move name) (log (Exists name) w)))
           else if String.eqb name "completed" then
             (Ok count, say [ErrMoving name ShutilError]
                          (log (Move name) (log (Exists name) w)))
           else
             match assoc name (plans w), assoc "completed" (plans w) with
             | Some entry, Some (Dir entries) =>
                 (Ok (count + 1),
                  say [Moved name]
                    (with_plans
                       (assoc_set "completed" (Dir (entries ++ [(name, entry)]))
                                  (remove name (plans w)))
                       (log (Move name) (log (Exists name) w))))
             | _, _ => (Ok count, say [ErrMoving name FileNotFoundError]
                                      (log (Move name) (log (Exists name) w)))
             end
       end) = (Ok c1, w1) /\ has_archive w1 /\ calls w1 = (calls w ++ more1)%list).
    { destruct (archived w name).
      { do 3 eexists. split; [reflexivity|]. split; [exact Harch|reflexivity]. }
      destruct (bool_decide (name ∈ locked w)).
      { do 3 eexists. split; [reflexivity|]. split; [exact Harch|].
        simpl. now rewrite <- app_assoc. }
      destruct (String.eqb name "completed").
      { do 3 eexists. split; [reflexivity|]. split; [exact Harch|].
        simpl. now rewrite <- app_assoc. }
      destruct (assoc name (plans w)) as [entry|].
      - destruct Harch as [entries Harch]. rewrite Harch.
        do 3 eexists. split; [reflexivity|]. split.
        + eexists. simpl. apply assoc_set_same.
        + simpl. now rewrite <- app_assoc.
      - do 3 eexists. split; [reflexivity|]. split; [exact Harch|].
        simpl. now rewrite <- app_assoc. }
    destruct Hstep as (c1 & w1 & more1 & -> & Harch1 & Hcalls1).
    destruct (IH c1 w1 Harch1) as (count' & w' & more & Hrun & Harch' & Hcalls').
    exists count', w', (more1 ++ more)%list. rewrite Hrun.
    split; [reflexivity|]. split; [exact Harch'|].
    now rewrite Hcalls', Hcalls1, <- app_assoc.
Qed.

(** *** The run *)

Lemma mkdir_run w :
  (forall content, pending w "completed" <> Some (File content)) ->
  exists w0,
    mkdir_exist_ok "completed" w = (Ok tt, w0) /\
    has_archive w0 /\
    locked w0 = locked w /\
    stdout w0 = stdout w /\
    calls w0 = (calls w ++ [Mkdir "completed"])%list /\
    (forall x, x <> "completed" ->
       pending w0 x = pending w x /\ archived w0 x = archived w x) /\
    (plans w0 = plans w \/
     pending w "completed" = None /\
     plans w0 = (plans w ++ [("completed", Dir [])])%list).
Proof.
  intros Hfile. unfold mkdir_exist_ok, pending, archived, has_archive in *.
  simpl. destruct (assoc "completed" (plans w)) as [[content|entries]|] eqn:E.
  - now destruct (Hfile content).
  - eexists. split; [reflexivity|]. simpl. rewrite E. repeat split; eauto.
  - eexists. split; [reflexivity|]. simpl. rewrite assoc_app, E. simpl.
    split; [eauto|]. repeat split; auto.
    rewrite assoc_app. destruct (assoc x (plans w)); auto.
    simpl. apply String.eqb_neq in H. now rewrite H.
Qed.

Lemma matching_after_mkdir n w w0 :
  plans w0 = plans w \/ plans w0 = (plans w ++ [("completed", Dir [])])%list ->
  matching n w0 = matching n w.
Proof.
  unfold matching, keys. intros [->| ->]; [reflexivity|].
  rewrite map_app, List.filter_app. cbn [map fst List.filter].
  rewrite completed_no_match. apply app_nil_r.
Qed.

Lemma matching_facts n w :
  NoDup (keys (plans w)) ->
  NoDup (matching n w) /\
  ("completed" ∉ matching n w) /\
  (forall name, name ∈ matching n w -> is_Some (pending w name)).
Proof.
  intros Hnd. unfold matching. split; [|split].
  - apply NoDup_ListNoDup, List.NoDup_filter, NoDup_ListNoDup, Hnd.
  - intros H. apply list_elem_of_In, filter_In in H as [_ H].
    now rewrite completed_no_match in H.
  - intros name H. apply list_elem_of_In, filter_In in H as [H _].
    apply assoc_keys. now apply list_elem_of_In.
Qed.

(** What a run of [move_cycle_files] leaves, in terms of the world it
    started from. *)
Lemma move_cycle_files_run n w :
  (forall content, pending w "completed" <> Some (File content)) ->
  NoDup (keys (plans w)) ->
  exists w',
    move_cycle_files n w = (Ok tt, w') /\
    has_archive w' /\
    locked w' = locked w /\
    stdout w' = (stdout w ++ transcript n w)%list /\
    calls w' =
      (calls w ++ Mkdir "completed" :: Glob (cycle_pattern n) ::
       flat_map (probes w) (matching n w))%list /\
    (forall x, x ∉ matching n w -> x <> "completed" ->
       pending w' x = pending w x /\ archived w' x = archived w x) /\
    (forall name, name ∈ matching n w ->
       if movable w name
       then pending w' name = None /\ archived w' name = pending w name
       else pending w' name = pending w name /\
            archived w' name = archived w name).
Proof.
  intros Hfile Hnd.
  destruct (mkdir_run w Hfile)
    as (w0 & Hmk & Harch0 & Hlock0 & Hout0 & Hcalls0 & Hframe0 & Hplans0).
  assert (Hmatch : matching n w0 = matching n w).
  { apply matching_after_mkdir. destruct Hplans0 as [H|[_ H]]; auto. }
  destruct (matching_facts n w Hnd) as (Hnames & Hcompleted & Hpending).
  assert (Hne : forall x, x ∈ matching n w -> x <> "completed")
    by (intros x Hx ->; contradiction).
  destruct (verdicts_agree w w0 (matching n w) Hlock0) as (E1 & E2 & E3);
    [intros x Hx; apply Hframe0; auto|].
  unfold move_cycle_files, transcript. unfold mbind, M_bind, bind. rewrite Hmk.
  unfold glob. fold (matching n w0). rewrite Hmatch.
  destruct (matching n w) as [|name rest] eqn:Enames.
  - eexists. split; [reflexivity|]. simpl.
    rewrite Hlock0, Hout0, Hcalls0, <- app_assoc. simpl.
    split; [exact Harch0|]. repeat split; auto; try apply Hframe0; auto.
    intros name H. inversion H.
  - rewrite <- Enames in *. clear Enames.
    destruct (move_all_run (matching n w) 0
                (say [Found (length (matching n w))]
                     (log (Glob (cycle_pattern n)) w0)))
      as (w1 & Hrun & Harch1 & Hlock1 & Hout1 & Hcalls1 & Hframe1 & Hself1);
      auto.
    { intros x Hx. destruct (Hframe0 x (Hne x Hx)) as [E _].
      unfold pending in *. simpl. rewrite E. now apply Hpending. }
    change (print (Found (length (matching n w))) (log (Glob (cycle_pattern n)) w0))
      with (Ok tt, say [Found (length (matching n w))]
                       (log (Glob (cycle_pattern n)) w0)).
    cbv iota beta. rewrite Hrun.
    set (wf := say _ (log _ w0)) in *.
    assert (Ew : List.filter (movable wf) (matching n w) =
                 List.filter (movable w) (matching n w)) by exact E1.
    assert (Ev : map (verdict wf) (matching n w) = map (verdict w) (matching n w))
      by exact E2.
    assert (Ep : flat_map (probes wf) (matching n w) =
                 flat_map (probes w) (matching n w)) by exact E3.
    rewrite Ew, Ev, Ep in *.
    eexists. split; [reflexivity|]. simpl.
    split; [exact Harch1|]. split; [now rewrite Hlock1|].
    split; [|split; [|split]].
    + rewrite Hout1. subst wf. simpl. rewrite Hout0.
      destruct (matching n w); rewrite <- ?app_assoc; reflexivity.
    + rewrite Hcalls1. subst wf. simpl. rewrite Hcalls0.
      now rewrite <- !app_assoc.
    + intros x Hx Hxc. destruct (Hframe1 x Hx Hxc) as [F1 F2].
      destruct (Hframe0 x Hxc) as [F3 F4].
      split; [exact (eq_trans F1 F3)|exact (eq_trans F2 F4)].
    + intros x Hx. specialize (Hself1 x Hx).
      destruct (Hframe0 x (Hne x Hx)) as [Ep0 Ea0].
      assert (Em : movable wf x = movable w x).
      { unfold movable. change (archived wf x) with (archived w0 x).
        change (locked wf) with (locked w0). now rewrite Ea0, Hlock0. }
      change (pending wf x) with (pending w0 x) in Hself1.
      change (archived wf x) with (archived w0 x) in Hself1.
      rewrite Em, Ep0, Ea0 in Hself1. exact Hself1.
Qed.

Lemma main_in_range prog arg n w w' :
  py_int arg = Ok n -> 1 <= n <= 9999 ->
  move_cycle_files n (say [Moving (format_04d n)] w) = (Ok tt, w') ->
  main [prog; arg] w = (Ok tt, w').
Proof.
  intros Hint Hn Hrun. unfold main. cbn [length Nat.eqb negb nth].
  unfold try_except, mbind, M_bind, bind, lift. rewrite Hint.
  replace (n <? 1)%Z with false by (symmetry; apply Z.ltb_ge; lia).
  replace (n >? 9999)%Z with false
    by (symmetry; rewrite Z.gtb_ltb; apply Z.ltb_ge; lia).
  cbn [orb].
  change (print (Moving (format_04d n)) w)
    with (Ok tt, say [Moving (format_04d n)] w).
  cbv iota beta. now rewrite Hrun.
Qed.

Lemma verdict_cases w x :
  verdict w x = WarnExists x /\ is_Some (archived w x) \/
  verdict w x = ErrMoving x PermissionError /\ archived w x = None /\ x ∈ locked w \/
  verdict w x = Moved x /\ archived w x = None /\ x ∉ locked w.
Proof.
  unfold verdict. destruct (archived w x); [left; eauto|].
  case_bool_decide; [right; left|right; right]; auto.
Qed.

Lemma in_matching n w name :
  1 <= n <= 9999 ->
  String.prefix (cycle_prefix n) name = true -> is_Some (pending w name) ->
  name ∈ matching n w.
Proof.
  intros Hn Hp Hsome. rewrite matching_prefix by assumption.
  apply list_elem_of_In, filter_In. split; [|exact Hp].
  apply list_elem_of_In. now apply assoc_keys.
Qed.

Lemma moved_lines w names :
  length (List.filter is_Moved (map (verdict w) names)) =
  length (List.filter (movable w) names).
Proof.
  induction names as [|x rest IH]; [reflexivity|]. simpl.
  assert (E : is_Moved (verdict w x) = movable w x).
  { unfold verdict, movable. destruct (archived w x); [reflexivity|].
    now destruct (bool_decide (x ∈ locked w)). }
  rewrite E. destruct (movable w x); simpl; now rewrite IH.
Qed.

Lemma verdict_in_transcript n w name :
  name ∈ matching n w -> verdict w name ∈ Moving (format_04d n) :: transcript n w.
Proof.
  intros Hin. unfold transcript. apply elem_of_cons. right.
  destruct (matching n w) as [|y rest] eqn:E; [inversion Hin|].
  rewrite <- E in *. apply elem_of_cons. right. apply elem_of_app. left.
  apply list_elem_of_fmap. exists name. split; [reflexivity|exact Hin].
Qed.

(** A line of the run is the verdict on a matching file, or no line on a
    file at all. *)
Lemma transcript_lines n w m :
  m ∈ Moving (format_04d n) :: transcript n w ->
  (exists x, x ∈ matching n w /\ m = verdict w x) \/
  is_Moved m = false /\
  (forall x e, m <> ErrMoving x e) /\ (forall x, m <> WarnExists x).
Proof.
  intros Hm. unfold transcript in Hm.
  apply elem_of_cons in Hm as [->|Hm]; [right; repeat split; discriminate|].
  destruct (matching n w) as [|y rest] eqn:E.
  - apply list_elem_of_singleton in Hm as ->. right. repeat split; discriminate.
  - rewrite <- E in *. apply elem_of_cons in Hm as [->|Hm];
      [right; repeat split; discriminate|].
    apply elem_of_app in Hm as [Hm|Hm].
    + apply list_elem_of_fmap in Hm as (x & -> & Hx). left. eauto.
    + apply list_elem_of_singleton in Hm as ->. right.
      repeat split; discriminate.
Qed.

(** C3, as the script has it: a file of the source directory whose name
    starts with the prefix of the cycle ends in one of three ways.  With a
    file of that name already in [completed], both files stay what and
    where they were and the file is reported as skipped, not as an error.
    With the name free: the system lets the file move, and it is in
    [completed] and no longer in the source directory; or the move raises,
    the file stays in the source directory and the error is reported. *)
Theorem matching_file_is_moved_skipped_or_refused prog arg n w name entry :
  py_int arg = Ok n ->
  1 <= n <= 9999 ->
  NoDup (keys (plans w)) ->
  (forall content, pending w "completed" <> Some (File content)) ->
  String.prefix (cycle_prefix n) name = true ->
  pending w name = Some entry ->
  exists w' out,
    main [prog; arg] w = (Ok tt, w') /\
    stdout w' = (stdout w ++ out)%list /\
    match archived w name with
    | Some old =>
        pending w' name = Some entry /\ archived w' name = Some old /\
        WarnExists name ∈ out /\ (Moved name ∉ out) /\
        (forall e, ErrMoving name e ∉ out)
    | None =>
        if bool_decide (name ∈ locked w)
        then pending w' name = Some entry /\
             ErrMoving name PermissionError ∈ out /\ (Moved name ∉ out)
        else pending w' name = None /\ archived w' name = Some entry /\
             Moved name ∈ out
    end.
Proof.
  intros Hint Hn Hnd Hfile Hprefix Hentry.
  assert (Hin : name ∈ matching n w) by (apply in_matching; eauto).
  destruct (move_cycle_files_run n (say [Moving (format_04d n)] w) Hfile Hnd)
    as (w' & Hrun & _ & _ & Hout & _ & _ & Hself).
  specialize (Hself name Hin).
  exists w', (Moving (format_04d n) :: transcript n w).
  split; [eapply main_in_range; eauto|].
  split; [rewrite Hout; simpl; rewrite <- app_assoc; reflexivity|].
  clear Hrun Hout.
  change (movable (say [Moving (format_04d n)] w) name)
    with (movable w name) in Hself.
  change (pending (say [Moving (format_04d n)] w) name)
    with (pending w name) in Hself.
  change (archived (say [Moving (format_04d n)] w) name)
    with (archived w name) in Hself.
  pose proof (verdict_in_transcript n w name Hin) as Hverdict.
  pose proof (transcript_lines n w) as Hlines.
  unfold movable in Hself.
  destruct (verdict_cases w name)
    as [[Hv [old Hold]]|[(Hv & Hnone & Hl)|(Hv & Hnone & Hl)]].
  - rewrite Hold in *. rewrite Hv in Hverdict. cbn iota in Hself.
    destruct Hself as [Hp Ha]. rewrite Hp, Ha.
    split; [exact Hentry|]. split; [reflexivity|]. split; [exact Hverdict|].
    split.
    + intros Hm. destruct (Hlines _ Hm) as [(x & Hx & E)|(E & _)]; [|discriminate].
      destruct (verdict_cases w x) as [[Hvx _]|[(Hvx & _)|(Hvx & Hnx & _)]];
        rewrite Hvx in E; try discriminate.
      injection E as <-. rewrite Hold in Hnx. discriminate.
    + intros e Hm. destruct (Hlines _ Hm) as [(x & Hx & E)|(_ & E & _)];
        [|now apply (E name e)].
      destruct (verdict_cases w x) as [[Hvx _]|[(Hvx & Hnx & _)|(Hvx & _)]];
        rewrite Hvx in E; try discriminate.
      injection E as <- _. rewrite Hold in Hnx. discriminate.
  - rewrite Hnone in *. rewrite bool_decide_eq_true_2 in * by assumption.
    simpl in Hself. destruct Hself as [Hp _]. rewrite Hp, Hv in *.
    split; [exact Hentry|]. split; [exact Hverdict|].
    intros Hm. destruct (Hlines _ Hm) as [(x & Hx & E)|(E & _)]; [|discriminate].
    destruct (verdict_cases w x) as [[Hvx _]|[(Hvx & _)|(Hvx & _ & Hlx)]];
      rewrite Hvx in E; try discriminate.
    injection E as <-. contradiction.
  - rewrite Hnone in *. rewrite bool_decide_eq_false_2 in * by assumption.
    simpl in Hself. destruct Hself as [Hp Ha]. rewrite Hp, Ha, Hv in *.
    split; [reflexivity|]. split; [exact Hentry|exact Hverdict].
Qed.

(** C8: a move that raises is caught where it happens: the error is
    reported, the file stays, and the files after it are still moved; the
    run returns (exit status 0).  The count of the summary is the number of
    files moved: the matching files with a free name in [completed] that the
    system let move, which are the files that left the source directory and
    the files the run reports as moved; skipped and refused files do not
    count. *)
Theorem move_failures_are_isolated_and_counted_out prog arg n w :
  py_int arg = Ok n ->
  1 <= n <= 9999 ->
  NoDup (keys (plans w)) ->
  (forall content, pending w "completed" <> Some (File content)) ->
  exists w' out,
    main [prog; arg] w = (Ok tt, w') /\
    exit_code (fst (main [prog; arg] w)) = 0 /\
    stdout w' = (stdout w ++ out)%list /\
    matching n w = List.filter (String.prefix (cycle_prefix n)) (keys (plans w)) /\
    (forall name, name ∈ matching n w ->
       archived w name = None -> name ∈ locked w ->
       ErrMoving name PermissionError ∈ out /\
       pending w' name = pending w name) /\
    (forall name, name ∈ matching n w ->
       archived w name = None -> name ∉ locked w ->
       Moved name ∈ out /\
       pending w' name = None /\ archived w' name = pending w name) /\
    (matching n w <> [] ->
     last out = Some (Completed (Z.of_nat (length
                        (List.filter (movable w) (matching n w)))))) /\
    (forall name, name ∈ matching n w ->
       movable w name = true <-> pending w' name = None) /\
    length (List.filter (movable w) (matching n w)) =
      length (List.filter is_Moved out).
Proof.
  intros Hint Hn Hnd Hfile.
  destruct (move_cycle_files_run n (say [Moving (format_04d n)] w) Hfile Hnd)
    as (w' & Hrun & _ & _ & Hout & _ & _ & Hself).
  assert (Hmain : main [prog; arg] w = (Ok tt, w'))
    by (eapply main_in_range; eauto).
  exists w', (Moving (format_04d n) :: transcript n w).
  split; [exact Hmain|]. split; [now rewrite Hmain|].
  split; [rewrite Hout; simpl; rewrite <- app_assoc; reflexivity|].
  split; [now apply matching_prefix|].
  assert (Hself' : forall name, name ∈ matching n w ->
            if movable w name
            then pending w' name = None /\ archived w' name = pending w name
            else pending w' name = pending w name /\
                 archived w' name = archived w name) by exact Hself.
  clear Hself Hrun Hout.
  split; [|split; [|split; [|split]]].
  - intros name Hin Hnone Hl. specialize (Hself' name Hin).
    pose proof (verdict_in_transcript n w name Hin) as Hv.
    unfold movable in Hself'. unfold verdict in Hv.
    rewrite Hnone, bool_decide_eq_true_2 in * by assumption.
    simpl in Hself'. split; [exact Hv|apply Hself'].
  - intros name Hin Hnone Hl. specialize (Hself' name Hin).
    pose proof (verdict_in_transcript n w name Hin) as Hv.
    unfold movable in Hself'. unfold verdict in Hv.
    rewrite Hnone, bool_decide_eq_false_2 in * by assumption.
    simpl in Hself'. split; [exact Hv|exact Hself'].
  - intros Hne. unfold transcript.
    destruct (matching n w) as [|y rest] eqn:E; [congruence|].
    rewrite <- E. rewrite !app_comm_cons. apply last_snoc.
  - intros name Hin. specialize (Hself' name Hin).
    destruct (matching_facts n w Hnd) as (_ & _ & Hpend).
    destruct (Hpend name Hin) as [entry Hentry].
    destruct (movable w name).
    + split; [intros _; apply Hself'|reflexivity].
    + destruct Hself' as [Hp _]. split; [discriminate|].
      rewrite Hp, Hentry. discriminate.
  - unfold transcript. simpl.
    destruct (matching n w) as [|y rest] eqn:E; [reflexivity|].
    rewrite <- E. simpl. rewrite List.filter_app. simpl.
    rewrite app_nil_r. symmetry. apply moved_lines.
Qed.

Lemma move_cycle_files_total n w :
  (forall content, pending w "completed" <> Some (File content)) ->
  exists w' more,
    move_cycle_files n w = (Ok tt, w') /\
    has_archive w' /\
    calls w' =
      (calls w ++ Mkdir "completed" :: Glob (cycle_pattern n) :: more)%list /\
    (matching n w = [] ->
     more = [] /\
     stdout w' = (stdout w ++ [NoFilesFound (cycle_pattern n)])%list /\
     (pending w "completed" = None ->
      plans w' = (plans w ++ [("completed", Dir [])])%list)).
Proof.
  intros Hfile.
  destruct (mkdir_run w Hfile)
    as (w0 & Hmk & Harch0 & Hlock0 & Hout0 & Hcalls0 & Hframe0 & Hplans0).
  assert (Hmatch : matching n w0 = matching n w).
  { apply matching_after_mkdir. destruct Hplans0 as [H|[_ H]]; auto. }
  unfold move_cycle_files. unfold mbind, M_bind, bind. rewrite Hmk.
  unfold glob. fold (matching n w0). rewrite Hmatch.
  destruct (matching n w) as [|name rest] eqn:Enames.
  - exists (say [NoFilesFound (cycle_pattern n)] (log (Glob (cycle_pattern n)) w0)), [].
    split; [reflexivity|]. split; [exact Harch0|]. simpl.
    rewrite Hcalls0, Hout0, <- app_assoc. split; [reflexivity|].
    intros _. split; [reflexivity|]. split; [reflexivity|].
    intros Hnone. destruct Hplans0 as [H|[_ H]]; [|exact H].
    destruct Harch0 as [es Hes]. unfold pending in Hnone.
    rewrite H, Hnone in Hes. discriminate.
  - destruct (move_all_total (name :: rest) 0
                (say [Found (length (name :: rest))]
                     (log (Glob (cycle_pattern n)) w0)))
      as (count' & w1 & more & Hrun & Harch1 & Hcalls1); [exact Harch0|].
    change (print (Found (length (name :: rest))) (log (Glob (cycle_pattern n)) w0))
      with (Ok tt, say [Found (length (name :: rest))]
                       (log (Glob (cycle_pattern n)) w0)).
    cbv iota beta. rewrite Hrun.
    eexists. exists more. split; [reflexivity|]. split; [exact Harch1|].
    simpl. rewrite Hcalls1. simpl. rewrite Hcalls0, <- !app_assoc.
    split; [reflexivity|discriminate].
Qed.

(** C10: for a cycle number in range, [completed] is created when it is not
    there, and the call that creates it comes before the call that lists the
    matching files; a run that finds nothing to move has still changed the
    directory of the script, by one entry: [completed]. *)
Theorem destination_is_created_before_listing prog arg n w :
  py_int arg = Ok n ->
  1 <= n <= 9999 ->
  pending w "completed" = None ->
  exists w' more,
    main [prog; arg] w = (Ok tt, w') /\
    has_archive w' /\
    plans w' <> plans w /\
    calls w' =
      (calls w ++ Mkdir "completed" :: Glob (cycle_pattern n) :: more)%list /\
    (matching n w = [] ->
     more = [] /\
     plans w' = (plans w ++ [("completed", Dir [])])%list /\
     stdout w' = (stdout w ++ [Moving (format_04d n);
                               NoFilesFound (cycle_pattern n)])%list).
Proof.
  intros Hint Hn Hnone.
  destruct (move_cycle_files_total n (say [Moving (format_04d n)] w))
    as (w' & more & Hrun & Harch & Hcalls & Hempty).
  { intros content. unfold pending in *. simpl. rewrite Hnone. discriminate. }
  exists w', more. split; [eapply main_in_range; eauto|].
  split; [exact Harch|]. split; [|split; [exact Hcalls|]].
  - intros E. destruct Harch as [es Hes]. unfold pending in Hnone.
    rewrite E, Hnone in Hes. discriminate.
  - intros Hm. destruct (Hempty Hm) as (-> & Hout & Hplans).
    split; [reflexivity|]. split; [now apply Hplans|].
    rewrite Hout. simpl. now rewrite <- app_assoc.
Qed.

Lemma py_int_ValueError s e : py_int s = Raise e -> e = ValueError.
Proof.
  unfold py_int. cbv zeta.
  destruct (match strip _ with [] => _ | _ => _ end); [|intros H; congruence].
  destruct (_ <? _)%nat; intros H; congruence.
Qed.

(** C5: an ASCII argument [int] rejects, and one it reads as an integer
    outside 1..9999, end the run with exit status 1, each with its own
    message; no call on the file system is made, and the directory is what
    it was. *)
Theorem bad_argument_is_rejected_untouched prog arg w :
  ascii_only arg = true ->
  (py_int arg = Raise ValueError \/
   exists n, py_int arg = Ok n /\ (n < 1 \/ 9999 < n)) ->
  exists w',
    main [prog; arg] w = (Raise (SystemExit 1), w') /\
    exit_code (fst (main [prog; arg] w)) = 1 /\
    plans w' = plans w /\
    calls w' = calls w /\
    stdout w' =
      (stdout w ++ [match py_int arg with
                    | Ok _ => ErrRange
                    | Raise _ => ErrNotInteger
                    end])%list /\
    ErrRange <> ErrNotInteger.
Proof.
  intros _ Hbad.
  assert (Hmain : exists w',
    main [prog; arg] w = (Raise (SystemExit 1), w') /\
    plans w' = plans w /\ calls w' = calls w /\
    stdout w' =
      (stdout w ++ [match py_int arg with
                    | Ok _ => ErrRange
                    | Raise _ => ErrNotInteger
                    end])%list).
  { unfold main. cbn [length Nat.eqb negb nth].
    unfold try_except, mbind, M_bind, bind, lift.
    destruct Hbad as [->|(n & -> & Hn)].
    - eexists. simpl. repeat split; reflexivity.
    - replace ((n <? 1)%Z || (n >? 9999)%Z)%bool with true.
      + eexists. simpl. repeat split; reflexivity.
      + symmetry. apply orb_true_iff. rewrite Z.gtb_ltb, !Z.ltb_lt. lia. }
  destruct Hmain as (w' & Hmain & Hplans & Hcalls & Hout).
  exists w'. rewrite Hmain. repeat split; auto; discriminate.
Qed.

(** *** The theorems at work *)

Lemma matching_file_is_moved_skipped_or_refused_witness :
  exists w' out,
    main [script; "13"] (desk cycle_13 []) = (Ok tt, w') /\
    stdout w' = (stdout (desk cycle_13 []) ++ out)%list /\
    match archived (desk cycle_13 []) plan_13 with
    | Some old =>
        pending w' plan_13 = Some (File "plan") /\
        archived w' plan_13 = Some old /\
        WarnExists plan_13 ∈ out /\ (Moved plan_13 ∉ out) /\
        (forall e, ErrMoving plan_13 e ∉ out)
    | None =>
        if bool_decide (plan_13 ∈ locked (desk cycle_13 []))
        then pending w' plan_13 = Some (File "plan") /\
             ErrMoving plan_13 PermissionError ∈ out /\ (Moved plan_13 ∉ out)
        else pending w' plan_13 = None /\
             archived w' plan_13 = Some (File "plan") /\
             Moved plan_13 ∈ out
    end.
Proof.
  apply (matching_file_is_moved_skipped_or_refused script "13" 13
           (desk cycle_13 []) plan_13 (File "plan")).
  - reflexivity.
  - lia.
  - apply (bool_decide_unpack _). vm_compute. reflexivity.
  - intros content. discriminate.
  - reflexivity.
  - reflexivity.
Defined.

(** C3, as stated, fails when the system refuses the move: the plan of cycle
    13 matches, no file of that name is in [completed], and after the run
    the plan is still in the source directory and not in [completed]. *)
Lemma refused_file_stays_in_source :
  String.prefix (cycle_prefix 13) plan_13 = true /\
  pending pinned_desk plan_13 = Some (File "plan") /\
  archived pinned_desk plan_13 = None /\
  exists w',
    main [script; "13"] pinned_desk = (Ok tt, w') /\
    pending w' plan_13 = Some (File "plan") /\
    archived w' plan_13 = None /\
    ErrMoving plan_13 PermissionError ∈ stdout w'.
Proof.
  split; [reflexivity|]. split; [reflexivity|]. split; [reflexivity|].
  eexists. split; [vm_compute; reflexivity|].
  split; [reflexivity|]. split; [reflexivity|].
  simpl. set_solver.
Qed.

Lemma move_failures_are_isolated_and_counted_out_witness :
  exists w' out,
    main [script; "13"] pinned_desk = (Ok tt, w') /\
    exit_code (fst (main [script; "13"] pinned_desk)) = 0 /\
    stdout w' = (stdout pinned_desk ++ out)%list /\
    matching 13 pinned_desk =
      List.filter (String.prefix (cycle_prefix 13)) (keys (plans pinned_desk)) /\
    (forall name, name ∈ matching 13 pinned_desk ->
       archived pinned_desk name = None -> name ∈ locked pinned_desk ->
       ErrMoving name PermissionError ∈ out /\
       pending w' name = pending pinned_desk name) /\
    (forall name, name ∈ matching 13 pinned_desk ->
       archived pinned_desk name = None -> name ∉ locked pinned_desk ->
       Moved name ∈ out /\
       pending w' name = None /\ archived w' name = pending pinned_desk name) /\
    (matching 13 pinned_desk <> [] ->
     last out = Some (Completed (Z.of_nat (length
                        (List.filter (movable pinned_desk)
                                     (matching 13 pinned_desk)))))) /\
    (forall name, name ∈ matching 13 pinned_desk ->
       movable pinned_desk name = true <-> pending w' name = None) /\
    length (List.filter (movable pinned_desk) (matching 13 pinned_desk)) =
      length (List.filter is_Moved out).
Proof.
  apply (move_failures_are_isolated_and_counted_out script "13" 13 pinned_desk).
  - reflexivity.
  - lia.
  - apply (bool_decide_unpack _). vm_compute. reflexivity.
  - intros content. discriminate.
Defined.

Lemma destination_is_created_before_listing_witness :
  exists w' more,
    main [script; "15"] (desk cycle_13 []) = (Ok tt, w') /\
    has_archive w' /\
    plans w' <> plans (desk cycle_13 []) /\
    calls w' =
      (calls (desk cycle_13 []) ++
       Mkdir "completed" :: Glob (cycle_pattern 15) :: more)%list /\
    (matching 15 (desk cycle_13 []) = [] ->
     more = [] /\
     plans w' = (plans (desk cycle_13 []) ++ [("completed", Dir [])])%list /\
     stdout w' = (stdout (desk cycle_13 []) ++
                  [Moving (format_04d 15); NoFilesFound (cycle_pattern 15)])%list).
Proof.
  apply (destination_is_created_before_listing script "15" 15 (desk cycle_13 [])).
  - reflexivity.
  - lia.
  - reflexivity.
Defined.

Lemma bad_argument_is_rejected_untouched_witness :
  (exists w',
     main [script; "thirteen"] (desk cycle_13 []) = (Raise (SystemExit 1), w') /\
     exit_code (fst (main [script; "thirteen"] (desk cycle_13 []))) = 1 /\
     plans w' = plans (desk cycle_13 []) /\
     calls w' = calls (desk cycle_13 []) /\
     stdout w' =
       (stdout (desk cycle_13 []) ++
        [match py_int "thirteen" with
         | Ok _ => ErrRange
         | Raise _ => ErrNotInteger
         end])%list /\
     ErrRange <> ErrNotInteger) /\
  (exists w',
     main [script; "10000"] (desk cycle_13 []) = (Raise (SystemExit 1), w') /\
     exit_code (fst (main [script; "10000"] (desk cycle_13 []))) = 1 /\
     plans w' = plans (desk cycle_13 []) /\
     calls w' = calls (desk cycle_13 []) /\
     stdout w' =
       (stdout (desk cycle_13 []) ++
        [match py_int "10000" with
         | Ok _ => ErrRange
         | Raise _ => ErrNotInteger
         end])%list /\
     ErrRange <> ErrNotInteger) /\
  (exists w',
     main [script; String (ascii_of_nat 31) "13"] (desk cycle_13 [])
       = (Raise (SystemExit 1), w') /\
     exit_code (fst (main [script; String (ascii_of_nat 31) "13"]
                       (desk cycle_13 []))) = 1 /\
     plans w' = plans (desk cycle_13 []) /\
     calls w' = calls (desk cycle_13 []) /\
     stdout w' =
       (stdout (desk cycle_13 []) ++
        [match py_int (String (ascii_of_nat 31) "13") with
         | Ok _ => ErrRange
         | Raise _ => ErrNotInteger
         end])%list /\
     ErrRange <> ErrNotInteger).
Proof.
  split; [|split].
  - apply (bad_argument_is_rejected_untouched script "thirteen" (desk cycle_13 [])).
    + reflexivity.
    + left. reflexivity.
  - apply (bad_argument_is_rejected_untouched script "10000" (desk cycle_13 [])).
    + reflexivity.
    + right. exists 10000. split; [reflexivity|lia].
  - apply (bad_argument_is_rejected_untouched script
             (String (ascii_of_nat 31) "13") (desk cycle_13 [])).
    + reflexivity.
    + left. reflexivity.
Defined.

End RelocatorProofs.

(* ===================================================================== *)
(** ** scale_weapon_damage.py: further behaviour *)
(* ===================================================================== *)

Module RescalerBehaviour.
Import Rescaler RescalerNotions PyFacts RescalerProofs.

(** *** What the loops can raise *)

Lemma raises_within_ret {A} allowed (a : A) : raises_within allowed (mret a).
Proof. intros w e. discriminate. Qed.

Lemma raises_within_bind {A B} allowed (m : M world A) (k : A -> M world B) :
  raises_within allowed m -> (forall a, raises_within allowed (k a)) ->
  raises_within allowed (m ≫= k).
Proof.
  intros Hm Hk w e. unfold mbind, M_bind, bind.
  specialize (Hm w). destruct (m w) as [[a|e'] w1]; simpl in *.
  - apply Hk.
  - intros [= <-]. now apply Hm.
Qed.

Lemma py_mul_errors x y e :
  py_mul x y = Raise e -> e = TypeError \/ e = OverflowError.
Proof.
  destruct x, y; simpl; intros H; simplify_eq; auto;
    match type of H with
    | context [float_of_int ?z] =>
        unfold float_of_int in H;
        destruct (binary_normalize prec emax z 0 false); simplify_eq; auto
    end.
Qed.

Lemma scale_entry_errors factor entry changes :
  raises_within loop_errors (scale_entry factor entry changes).
Proof.
  destruct entry as [id weapon]. intros w e. unfold scale_entry, loop_errors.
  unfold mbind, M_bind, bind, mret, M_ret, ret, lift, print.
  destruct weapon as [| | | |s|items|kvs]; simpl;
    try (intros [= <-]; set_solver).
  - destruct (is_substring "damage" s); simpl; [|discriminate].
    intros [= <-]. set_solver.
  - destruct (existsb (is_str "damage") items); simpl; [|discriminate].
    intros [= <-]. set_solver.
  - destruct (assoc "damage" kvs) as [d|]; simpl; [|discriminate].
    destruct (py_mul d factor) as [d'|e'] eqn:E; simpl.
    + unfold py_format.
      destruct (formats d); simpl; [|intros [= <-]; set_solver].
      destruct (formats d'); simpl; [discriminate|intros [= <-]; set_solver].
    + intros [= <-]. destruct (py_mul_errors _ _ _ E) as [-> | ->]; set_solver.
Qed.

Lemma scale_entries_errors factor entries changes :
  raises_within loop_errors (scale_entries factor entries changes).
Proof.
  revert changes. induction entries as [|entry rest IH]; intros changes; simpl.
  - apply raises_within_ret.
  - apply raises_within_bind; [apply scale_entry_errors|].
    intros [entry' changes'].
    apply raises_within_bind; [apply IH|].
    intros [rest' changes'']. apply raises_within_ret.
Qed.

Lemma scale_field_errors field factor data changes :
  raises_within loop_errors (scale_field field factor data changes).
Proof.
  intros w e. unfold scale_field, loop_errors.
  unfold mbind, M_bind, bind, mret, M_ret, ret, lift.
  destruct data as [| | | |s|items|top]; simpl;
    try (intros [= <-]; set_solver).
  - destruct (is_substring field s); simpl; [|discriminate].
    intros [= <-]. set_solver.
  - destruct (existsb (is_str field) items); simpl; [|discriminate].
    intros [= <-]. set_solver.
  - destruct (assoc field top) as [mapping|]; simpl; [|discriminate].
    destruct mapping as [| | | | | |entries]; simpl;
      try (intros [= <-]; set_solver).
    pose proof (scale_entries_errors factor entries changes w) as H.
    destruct (scale_entries factor entries changes w) as [[[es c]|e'] w1];
      simpl in *; [discriminate|].
    intros [= <-]. now apply H.
Qed.

Lemma scale_document_errors factor data :
  raises_within loop_errors (scale_document factor data).
Proof.
  unfold scale_document.
  apply raises_within_bind; [apply scale_field_errors|].
  intros [data1 changes1]. apply scale_field_errors.
Qed.

(** *** What the loops print *)



(** *** One factor after another *)






Section WithCodec.
Variable json_loads : string -> loaded.
Variable json_dumps : json -> string.

Local Abbreviation scale_weapon_damage :=
  (scale_weapon_damage json_loads json_dumps).
Local Abbreviation main := (main json_loads json_dumps).

(** *** What a call and a run can touch *)

(** X2: whatever the file holds, a call of [scale_weapon_damage] creates no
    path, deletes none, and leaves every path but its own as it was. *)
Theorem call_touches_only_its_file path factor w :
  (forall q, is_Some (files (snd (scale_weapon_damage path factor w)) !! q) <->
             is_Some (files w !! q)) /\
  (forall q, q <> path ->
     files (snd (scale_weapon_damage path factor w)) !! q = files w !! q).
Proof.
  destruct (scale_weapon_damage_effect json_loads json_dumps path factor w)
    as [(D & F & _) _].
  split; [exact D|]. intros q Hq. apply F. set_solver.
Qed.

(** X3: a call that raises has written nothing, whatever was raised and
    however far the loops had gone: the files are the files of before. *)
Theorem failed_call_writes_nothing path factor w e :
  fst (scale_weapon_damage path factor w) = Raise e ->
  files (snd (scale_weapon_damage path factor w)) = files w /\
  is_Exception e = true.
Proof.
  intros Hraise.
  destruct (scale_weapon_damage_effect json_loads json_dumps path factor w)
    as [_ E].
  destruct (E e Hraise). auto.
Qed.

Lemma scale_themes_effect names total w :
  touches (flat_map theme_paths names) w
          (snd (scale_themes json_loads json_dumps names total w)) /\
  (forall e, fst (scale_themes json_loads json_dumps names total w) = Raise e ->
     is_Exception e = true).
Proof.
  revert total w. induction names as [|theme rest IH]; intros total w.
  - simpl. split; [apply touches_refl|discriminate].
  - rewrite scale_themes_cons. cbn [flat_map].
    case_bool_decide as Hsome.
    + destruct (scale_theme_files_effect json_loads json_dumps
                  (path_join base_dir theme) weapon_files total
                  (say [ProcessingTheme theme] w)) as [T E].
      destruct (scale_theme_files _ _ _ _ _ _) as [[total'|e] w1];
        cbn [fst snd] in *.
      * destruct (IH total' w1) as [T' E']. split; [|exact E'].
        eapply touches_seq;
          [| |exact (touches_trans _ _ _ _ (touches_say _ _ w) T)|exact T'];
          unfold theme_paths; set_solver.
      * split; [|intros e' [= <-]; now apply E].
        eapply touches_mono;
          [|exact (touches_trans _ _ _ _ (touches_say _ _ w) T)].
        unfold theme_paths. set_solver.
    + destruct (IH total
                  (say [ProcessingTheme theme;
                        WarnNoThemeDir (path_join base_dir theme)] w))
        as [T' E'].
      split; [|exact E'].
      eapply touches_seq; [| |apply (touches_say [])|exact T']; set_solver.
Qed.

(** X4: whatever the files hold, and whether it returns or raises, [main]
    creates no path, deletes none, and changes nothing outside the four
    configured weapon files. *)
Theorem main_touches_only_configured_files w :
  (forall q, is_Some (files (snd (main w)) !! q) <-> is_Some (files w !! q)) /\
  (forall q, q ∉ configured_paths ->
     files (snd (main w)) !! q = files w !! q) /\
  configured_paths =
    ["src/main/resources/data/themes/test_theme/ranged-weapons.json";
     "src/main/resources/data/themes/test_theme/melee-weapons.json";
     "src/main/resources/data/themes/civil_war/ranged-weapons.json";
     "src/main/resources/data/themes/civil_war/melee-weapons.json"].
Proof.
  rewrite main_run.
  destruct (scale_themes_effect themes 0 (say [Banner; BannerPurpose; Rule] w))
    as [(D & F & _) _].
  destruct (scale_themes _ _ _ _ _) as [[total|e] w1]; cbn [fst snd] in *;
    (split; [exact D|split; [exact F|reflexivity]]).
Qed.

(** *** How a run can end *)

Lemma scale_weapon_damage_errors path factor w e :
  fst (scale_weapon_damage path factor w) = Raise e ->
  e ∈ crashes \/ e = FileNotFoundError /\ files w !! path = None.
Proof.
  unfold scale_weapon_damage, Rescaler.scale_weapon_damage, crashes.
  unfold mbind, M_bind, bind. rewrite print_say.
  unfold open_read. rewrite files_say.
  destruct (files w !! path) as [[text|]|] eqn:Hfile; simpl;
    try (intros [= <-]; auto; left; set_solver).
  unfold json_load. destruct (json_loads text) as [data|why]; simpl;
    [|intros [= <-]; left; destruct why; set_solver].
  pose proof (scale_document_errors factor data (say [Processing path] w)) as H.
  destruct (scale_document factor data (say [Processing path] w))
    as [[[data' changed]|e'] w2]; simpl in *.
  - destruct changed; discriminate.
  - intros [= <-]. left. specialize (H e' eq_refl).
    unfold loop_errors in H. set_solver.
Qed.

Lemma scale_theme_files_errors dir names total w e :
  fst (scale_theme_files json_loads json_dumps dir names total w) = Raise e ->
  e ∈ crashes.
Proof.
  revert total w. induction names as [|name rest IH]; intros total w.
  - discriminate.
  - rewrite scale_theme_files_cons. case_bool_decide as Hsome; [|apply IH].
    pose proof (scale_weapon_damage_errors (path_join dir name) default_factor w)
      as H.
    destruct (scale_weapon_damage (path_join dir name) default_factor w)
      as [[changed|e'] w1]; simpl in *; [apply IH|].
    intros [= <-]. destruct (H e' eq_refl) as [?|[_ Hnone]]; [assumption|].
    rewrite Hnone in Hsome. destruct Hsome; discriminate.
Qed.

Lemma scale_themes_errors names total w e :
  fst (scale_themes json_loads json_dumps names total w) = Raise e ->
  e ∈ crashes.
Proof.
  revert total w. induction names as [|theme rest IH]; intros total w.
  - discriminate.
  - rewrite scale_themes_cons. case_bool_decide as Hsome; [|apply IH].
    pose proof (scale_theme_files_errors (path_join base_dir theme) weapon_files
                  total (say [ProcessingTheme theme] w)) as H.
    destruct (scale_theme_files _ _ _ _ _ _) as [[total'|e'] w1];
      cbn [fst snd] in *; [apply IH|].
    intros [= <-]. now apply H.
Qed.

(** X5: a run of [main] that ends on an exception ends with status 1, and
    the exception is neither [FileNotFoundError] nor [KeyError]: [main]
    opens a file only after [os.path.exists] has found it, and the loops
    read [data[field]] and [weapon['damage']] only after [in] has found the
    key.  Nor is it [SystemExit]: the script never calls [sys.exit]. *)
Theorem main_never_misses_a_file_or_a_key w e :
  fst (main w) = Raise e ->
  exit_code (fst (main w)) = 1 /\
  e <> FileNotFoundError /\ e <> KeyError /\ (forall code, e <> SystemExit code).
Proof.
  rewrite main_run.
  pose proof (scale_themes_errors themes 0 (say [Banner; BannerPurpose; Rule] w))
    as H.
  destruct (scale_themes _ _ _ _ _) as [[total|e'] w1]; cbn [fst snd] in *;
    [discriminate|].
  intros [= <-]. specialize (H e' eq_refl). unfold crashes in *.
  repeat split; try (intros; intros ->; set_solver); auto.
  repeat (apply elem_of_cons in H as [->|H]; [reflexivity|]).
  inversion H.
Qed.

(** *** What a run leaves and counts *)








(** *** What a call prints *)




(** *** Documents of another shape *)

(** X9: a document that is [null], a boolean or a number is valid JSON and
    still ends the call: the membership test raises [TypeError], and nothing
    is written. *)
Theorem scalar_document_raises_TypeError path text data factor w :
  files w !! path = Some (File text) ->
  json_loads text = Loaded data ->
  scalar data = true ->
  scale_weapon_damage path factor w = (Raise TypeError, say [Processing path] w).
Proof.
  intros Hfile Hload Hscalar.
  unfold scale_weapon_damage, Rescaler.scale_weapon_damage.
  unfold mbind, M_bind, bind. rewrite print_say.
  unfold open_read. rewrite files_say, Hfile.
  unfold json_load. rewrite Hload. unfold ret at 1.
  destruct data; try discriminate; reflexivity.
Qed.

(** X10: a document in which neither [weapons] nor [meleeWeapons] is found
    (an object with other keys, but also a list or a string, where [in]
    looks for an item or a substring) is taken for a document without
    damage values: the call returns [False], says so, and writes nothing. *)
Theorem document_without_fields_is_left_alone path text data factor w :
  files w !! path = Some (File text) ->
  json_loads text = Loaded data ->
  py_contains "weapons" data = Ok false ->
  py_contains "meleeWeapons" data = Ok false ->
  scale_weapon_damage path factor w =
    (Ok false, say [Processing path; NoDamage path] w).
Proof.
  intros Hfile Hload Hw Hm.
  unfold scale_weapon_damage, Rescaler.scale_weapon_damage.
  unfold mbind, M_bind, bind. rewrite print_say.
  unfold open_read. rewrite files_say, Hfile.
  unfold json_load. rewrite Hload. unfold ret at 1.
  unfold scale_document, scale_field. unfold mbind, M_bind, bind, lift.
  rewrite Hw. simpl. rewrite Hm. simpl.
  unfold print, say, mret, M_ret, ret. simpl. now rewrite <- app_assoc.
Qed.

(** X11: a [weapons] field that is not a mapping has no [items]: the call
    ends on [AttributeError] before any entry is looked at, and nothing is
    written; so does a [meleeWeapons] field that is not a mapping, in a
    document without [weapons]. *)
Theorem field_that_is_no_mapping_raises_AttributeError
        path text top field mapping factor w :
  files w !! path = Some (File text) ->
  json_loads text = Loaded (JObj top) ->
  assoc field top = Some mapping ->
  is_object mapping = false ->
  field = "weapons" \/ field = "meleeWeapons" /\ assoc "weapons" top = None ->
  scale_weapon_damage path factor w =
    (Raise AttributeError, say [Processing path] w).
Proof.
  intros Hfile Hload Hfield Hobj Hwhich.
  unfold scale_weapon_damage, Rescaler.scale_weapon_damage.
  unfold mbind, M_bind, bind. rewrite print_say.
  unfold open_read. rewrite files_say, Hfile.
  unfold json_load. rewrite Hload. unfold ret at 1.
  unfold scale_document, scale_field. unfold mbind, M_bind, bind, lift.
  destruct Hwhich as [->|[-> Hnone]]; simpl.
  - rewrite Hfield. simpl. destruct mapping; try discriminate; reflexivity.
  - rewrite Hnone. simpl. rewrite Hfield. simpl.
    destruct mapping; try discriminate; reflexivity.
Qed.

End WithCodec.

(** *** The theorems on the sample documents *)


Lemma failed_call_writes_nothing_witness :
  files (snd (scale_weapon_damage sample_loads sample_dumps ranged_path
                (JInt 5) (one_file "{")))
    = files (one_file "{") /\
  is_Exception JSONDecodeError = true.
Proof.
  apply (failed_call_writes_nothing sample_loads sample_dumps ranged_path
           (JInt 5) (one_file "{") JSONDecodeError).
  vm_compute. reflexivity.
Defined.

Lemma main_never_misses_a_file_or_a_key_witness :
  exit_code (fst (main sample_loads sample_dumps (one_file "{"))) = 1 /\
  JSONDecodeError <> FileNotFoundError /\ JSONDecodeError <> KeyError /\
  (forall code, JSONDecodeError <> SystemExit code).
Proof.
  apply (main_never_misses_a_file_or_a_key sample_loads sample_dumps
           (one_file "{") JSONDecodeError).
  vm_compute. reflexivity.
Defined.




Lemma scalar_document_raises_TypeError_witness :
  scale_weapon_damage more_loads sample_dumps ranged_path (JInt 5)
    (one_file (sample_dumps (JInt 42)))
  = (Raise TypeError,
     say [Processing ranged_path] (one_file (sample_dumps (JInt 42)))).
Proof.
  apply (scalar_document_raises_TypeError more_loads sample_dumps ranged_path
           (sample_dumps (JInt 42)) (JInt 42) (JInt 5)
           (one_file (sample_dumps (JInt 42)))).
  - vm_compute. reflexivity.
  - vm_compute. reflexivity.
  - reflexivity.
Defined.

Lemma document_without_fields_is_left_alone_witness :
  scale_weapon_damage more_loads sample_dumps ranged_path (JInt 5)
    (one_file (sample_dumps (JArr [JStr "swords"])))
  = (Ok false,
     say [Processing ranged_path; NoDamage ranged_path]
         (one_file (sample_dumps (JArr [JStr "swords"])))).
Proof.
  apply (document_without_fields_is_left_alone more_loads sample_dumps
           ranged_path (sample_dumps (JArr [JStr "swords"]))
           (JArr [JStr "swords"]) (JInt 5)
           (one_file (sample_dumps (JArr [JStr "swords"])))).
  - vm_compute. reflexivity.
  - vm_compute. reflexivity.
  - vm_compute. reflexivity.
  - vm_compute. reflexivity.
Defined.

Lemma field_that_is_no_mapping_raises_AttributeError_witness :
  scale_weapon_damage more_loads sample_dumps ranged_path (JInt 5)
    (one_file (sample_dumps weapons_as_list))
  = (Raise AttributeError,
     say [Processing ranged_path] (one_file (sample_dumps weapons_as_list))).
Proof.
  apply (field_that_is_no_mapping_raises_AttributeError more_loads sample_dumps
           ranged_path (sample_dumps weapons_as_list)
           [("weapons", JArr [JInt 1; JInt 2])] "weapons"
           (JArr [JInt 1; JInt 2]) (JInt 5)
           (one_file (sample_dumps weapons_as_list))).
  - vm_compute. reflexivity.
  - vm_compute. reflexivity.
  - reflexivity.
  - reflexivity.
  - left. reflexivity.
Defined.

End RescalerBehaviour.

(* ===================================================================== *)
(** ** plans/move_cycle_to_completed.py: further behaviour *)
(* ===================================================================== *)

Module RelocatorBehaviour.
Import Relocator RelocatorNotions PyFacts RelocatorProofs.

(** *** The ways out of [main] *)

(** X12: with no argument, or more than one, [main] prints the two usage
    lines and exits with status 1; it makes no call on the file system and
    the directory is what it was. *)
Theorem wrong_argument_count_prints_usage argv w :
  length argv <> 2%nat ->
  exists w',
    main argv w = (Raise (SystemExit 1), w') /\
    exit_code (fst (main argv w)) = 1 /\
    stdout w' = (stdout w ++ [Usage; UsageExample])%list /\
    calls w' = calls w /\
    plans w' = plans w.
Proof.
  intros Hlen. unfold main.
  replace (length argv =? 2)%nat with false
    by (symmetry; now apply Nat.eqb_neq).
  eexists. split; [reflexivity|]. simpl. rewrite <- app_assoc.
  repeat split; reflexivity.
Qed.

Lemma main_valid argv n w :
  cycle_of argv = Some n ->
  1 <= n <= 9999 /\
  main argv w =
    match move_cycle_files n (say [Moving (format_04d n)] w) with
    | (Ok a, w') => (Ok a, w')
    | (Raise e, w') =>
        dispatch
          [(is_ValueError, fun _ => print ErrNotInteger;; raise (SystemExit 1));
           (is_Exception, fun e => print (ErrOther e);; raise (SystemExit 1))]
          e w'
    end.
Proof.
  unfold cycle_of, main. destruct (negb (length argv =? 2)%nat); [discriminate|].
  unfold try_except, mbind, M_bind, bind, lift.
  destruct (py_int (nth 1 argv "")) as [k|e]; [|discriminate].
  destruct ((k <? 1)%Z || (k >? 9999)%Z)%bool eqn:E; [discriminate|].
  intros [= <-]. apply orb_false_iff in E as [E1 E2].
  apply Z.ltb_ge in E1. rewrite Z.gtb_ltb in E2. apply Z.ltb_ge in E2.
  split; [lia|]. reflexivity.
Qed.

Lemma main_invalid argv w :
  cycle_of argv = None ->
  exists w',
    main argv w = (Raise (SystemExit 1), w') /\
    plans w' = plans w /\ locked w' = locked w /\ calls w' = calls w.
Proof.
  unfold cycle_of, main. destruct (negb (length argv =? 2)%nat).
  { intros _. eexists. split; [reflexivity|]. repeat split; reflexivity. }
  unfold try_except, mbind, M_bind, bind, lift.
  destruct (py_int (nth 1 argv "")) as [k|e] eqn:E.
  - destruct ((k <? 1)%Z || (k >? 9999)%Z)%bool; [|discriminate].
    intros _. eexists. split; [reflexivity|]. repeat split; reflexivity.
  - apply py_int_ValueError in E as Ee. subst e.
    intros _. eexists. split; [reflexivity|]. repeat split; reflexivity.
Qed.

Lemma blocked_run n w :
  blocked w = true ->
  move_cycle_files n w = (Raise FileExistsError, log (Mkdir "completed") w).
Proof.
  unfold blocked, pending, move_cycle_files, mkdir_exist_ok.
  unfold mbind, M_bind, bind. simpl.
  destruct (assoc "completed" (plans w)) as [[content|entries]|];
    try discriminate. reflexivity.
Qed.

Lemma not_blocked w :
  blocked w = false ->
  forall content, pending w "completed" <> Some (File content).
Proof.
  unfold blocked. intros H content E. rewrite E in H. discriminate.
Qed.

(** X13: when [completed] exists and is a regular file, [mkdir] raises
    [FileExistsError]; [main] reports the error and exits with status 1.
    The only call made is that [mkdir]: nothing is listed, nothing is
    moved, the directory is what it was. *)
Theorem destination_that_is_a_file_stops_the_run argv n w :
  cycle_of argv = Some n ->
  blocked w = true ->
  exists w',
    main argv w = (Raise (SystemExit 1), w') /\
    stdout w' = (stdout w ++ [Moving (format_04d n); ErrOther FileExistsError])%list /\
    calls w' = (calls w ++ [Mkdir "completed"])%list /\
    plans w' = plans w.
Proof.
  intros Hcycle Hblocked. destruct (main_valid argv n w Hcycle) as [_ ->].
  rewrite blocked_run by exact Hblocked.
  eexists. split; [reflexivity|]. simpl. rewrite <- app_assoc.
  repeat split; reflexivity.
Qed.

(** X14: with ASCII arguments, [main] ends in one of two ways, whatever
    the directory: it returns (status 0) or it exits with status 1; no
    exception leaves it.  It returns exactly when there is one argument,
    which [int] reads as an integer from 1 to 9999, and [completed] is not
    a regular file. *)
Theorem main_returns_or_exits_1 argv w :
  Forall (fun arg => ascii_only arg = true) argv ->
  (fst (main argv w) = Ok tt \/ fst (main argv w) = Raise (SystemExit 1)) /\
  (fst (main argv w) = Ok tt <->
   exists n, cycle_of argv = Some n /\ blocked w = false) /\
  (exit_code (fst (main argv w)) = 0 \/ exit_code (fst (main argv w)) = 1).
Proof.
  intros _.
  assert (H : fst (main argv w) = Ok tt /\
              (exists n, cycle_of argv = Some n /\ blocked w = false) \/
              fst (main argv w) = Raise (SystemExit 1) /\
              ~ (exists n, cycle_of argv = Some n /\ blocked w = false)).
  { destruct (cycle_of argv) as [n|] eqn:Hcycle.
    - destruct (main_valid argv n w Hcycle) as [Hn ->].
      destruct (blocked w) eqn:Hb.
      + right. change (blocked w) with (blocked (say [Moving (format_04d n)] w)) in Hb.
        rewrite (blocked_run n _ Hb). split; [reflexivity|].
        intros (k & _ & ?). discriminate.
      + left.
        destruct (move_cycle_files_total n (say [Moving (format_04d n)] w))
          as (w' & more & -> & _); [now apply not_blocked|].
        split; [reflexivity|eauto].
    - right. destruct (main_invalid argv w Hcycle) as (w' & -> & _).
      split; [reflexivity|]. intros (k & ? & _). discriminate. }
  destruct H as [[H1 H2]|[H1 H2]]; rewrite H1.
  - repeat split; auto.
  - repeat split; auto; try discriminate. intros Hex. now destruct H2.
Qed.

(** *** No file is lost *)

Lemma safe_same names w w' :
  plans w' = plans w -> locked w' = locked w -> safe names w w'.
Proof.
  intros Hp Hl. unfold safe, pending, archived. rewrite Hp.
  repeat split; auto.
Qed.

Lemma safe_trans n1 n2 names w1 w2 w3 :
  n1 ⊆ names -> n2 ⊆ names ->
  safe n1 w1 w2 -> safe n2 w2 w3 -> safe names w1 w3.
Proof.
  intros H1 H2 (L1 & A1 & B1 & C1 & D1) (L2 & A2 & B2 & C2 & D2).
  split; [congruence|]. split; [eauto|]. split; [eauto|]. split.
  - intros x e Hx Hp. destruct (C1 x e Hx Hp) as [H|H]; eauto.
  - intros x Hx Hc. rewrite D2, D1; auto.
Qed.

Lemma move_one_safe name count w :
  safe [name] w (snd (move_one name count w)).
Proof.
  rewrite move_one_run. cbv zeta.
  destruct (archived w name) as [old|] eqn:Hold;
    [now apply safe_same|].
  destruct (bool_decide (name ∈ locked w)); [now apply safe_same|].
  destruct (String.eqb name "completed") eqn:Hc; [now apply safe_same|].
  destruct (assoc name (plans w)) as [entry|] eqn:Hentry; [|now apply safe_same].
  destruct (assoc "completed" (plans w)) as [[content|entries]|] eqn:Harch;
    try now apply safe_same.
  apply String.eqb_neq in Hc.
  unfold archived in Hold. rewrite Harch in Hold.
  unfold safe, pending, archived. simpl. rewrite Harch, assoc_set_same.
  split; [reflexivity|]. split; [|split; [|split]].
  - intros x old Hx. rewrite assoc_app, Hx. reflexivity.
  - intros x e Hx. rewrite assoc_set_other by congruence.
    rewrite assoc_remove. now destruct (String.eqb name x).
  - intros x e Hx Hp. rewrite assoc_set_other by congruence.
    rewrite assoc_remove, assoc_app.
    destruct (String.eqb name x) eqn:E; [|now left].
    apply String.eqb_eq in E. subst x. right.
    rewrite Hold. simpl. rewrite String.eqb_refl. congruence.
  - intros x Hx Hxc. rewrite assoc_set_other by congruence.
    rewrite assoc_remove.
    assert (E : String.eqb name x = false)
      by (apply String.eqb_neq; intros ->; apply Hx; set_solver).
    now rewrite E.
Qed.

Lemma move_all_safe names count w :
  safe names w (snd (move_all names count w)).
Proof.
  revert count w. induction names as [|name rest IH]; intros count w.
  - now apply safe_same.
  - cbn [move_all]. unfold mbind, M_bind, bind.
    pose proof (move_one_safe name count w) as H1.
    destruct (move_one name count w) as [[count'|e] w1]; cbn [snd] in *.
    + eapply safe_trans; [| |exact H1|apply IH]; set_solver.
    + eapply safe_trans; [| |exact H1|now apply (safe_same [])]; set_solver.
Qed.

Lemma move_cycle_files_safe n w :
  safe (matching n w) w (snd (move_cycle_files n w)).
Proof.
  unfold move_cycle_files, mkdir_exist_ok. unfold mbind, M_bind, bind.
  change (assoc "completed" (plans (log (Mkdir "completed") w)))
    with (assoc "completed" (plans w)).
  assert (Hstep : forall w0,
    match matching n w0 with
    | [] => safe (matching n w0) w0
              (snd (print (NoFilesFound (cycle_pattern n))
                      (log (Glob (cycle_pattern n)) w0)))
    | _ :: _ =>
        safe (matching n w0) w0
          (snd (match move_all (matching n w0) 0
                        (say [Found (length (matching n w0))]
                             (log (Glob (cycle_pattern n)) w0)) with
                | (Ok moved, w1) => print (Completed moved) w1
                | (Raise e, w1) => (Raise e, w1)
                end))
    end).
  { intros w0. destruct (matching n w0) as [|name rest] eqn:E;
      [now apply safe_same|].
    pose proof (move_all_safe (name :: rest) 0
                  (say [Found (length (name :: rest))]
                       (log (Glob (cycle_pattern n)) w0))) as H.
    destruct (move_all _ _ _) as [[moved|e] w1]; cbn [snd] in *.
    - eapply safe_trans; [| |exact H|now apply (safe_same [])]; set_solver.
    - exact H. }
  destruct (assoc "completed" (plans w)) as [[content|entries]|] eqn:Harch.
  - now apply safe_same.
  - cbv iota beta. unfold glob. fold (matching n (log (Mkdir "completed") w)).
    specialize (Hstep (log (Mkdir "completed") w)).
    change (matching n (log (Mkdir "completed") w)) with (matching n w) in *.
    destruct (matching n w) as [|name rest].
    + now apply safe_same.
    + exact Hstep.
  - cbv iota beta. unfold glob.
    set (w0 := with_plans _ (log (Mkdir "completed") w)).
    fold (matching n w0).
    assert (Hm : matching n w0 = matching n w)
      by (apply matching_after_mkdir; now right).
    assert (H0 : safe [] w w0).
    { unfold safe, pending, archived. subst w0. simpl. rewrite Harch.
      split; [reflexivity|]. split; [discriminate|].
      assert (Hx : forall x, x <> "completed" ->
                assoc x (plans w ++ [("completed", Dir [])]) = assoc x (plans w)).
      { intros x Hx. rewrite assoc_app. destruct (assoc x (plans w)); auto.
        simpl. apply String.eqb_neq in Hx. now rewrite Hx. }
      split; [|split].
      - intros x e Hxc. now rewrite Hx.
      - intros x e Hxc Hp. left. now rewrite Hx.
      - intros x _ Hxc. now apply Hx. }
    specialize (Hstep w0). rewrite Hm in *.
    destruct (matching n w) as [|name rest].
    + eapply safe_trans; [| |exact H0|now apply (safe_same [])]; set_solver.
    + eapply safe_trans; [| |exact H0|exact Hstep]; set_solver.
Qed.

Lemma main_safe argv w :
  exists names, safe names w (snd (main argv w)) /\
    forall n, cycle_of argv = Some n -> names = matching n w.
Proof.
  destruct (cycle_of argv) as [n|] eqn:Hcycle.
  - exists (matching n w). split; [|now intros ? [= <-]].
    destruct (main_valid argv n w Hcycle) as [_ ->].
    pose proof (move_cycle_files_safe n (say [Moving (format_04d n)] w)) as H.
    change (matching n (say [Moving (format_04d n)] w)) with (matching n w) in H.
    assert (H0 : safe [] w (say [Moving (format_04d n)] w))
      by now apply safe_same.
    destruct (move_cycle_files n (say [Moving (format_04d n)] w))
      as [[a|e] w1]; cbn [snd] in *.
    + eapply safe_trans; [| |exact H0|exact H]; set_solver.
    + assert (H1 : safe (matching n w) w w1)
        by (eapply safe_trans; [| |exact H0|exact H]; set_solver).
      simpl. destruct (is_ValueError e); simpl;
        [|destruct (is_Exception e); simpl];
        (eapply safe_trans; [| |exact H1|now apply (safe_same [])];
         set_solver).
  - exists []. split; [|discriminate].
    destruct (main_invalid argv w Hcycle) as (w' & -> & Hp & Hl & _).
    now apply safe_same.
Qed.

(** X15: whatever the arguments, and whatever fails, a run removes nothing
    from [completed] and overwrites nothing there: each entry [completed]
    held before the run is there after it, with the same content. *)
Theorem archive_entries_are_kept argv w x old :
  archived w x = Some old ->
  archived (snd (main argv w)) x = Some old.
Proof.
  destruct (main_safe argv w) as (names & (_ & A & _) & _). apply A.
Qed.

(** X16: whatever the arguments, a run puts nothing into the source
    directory and rewrites nothing there: an entry found in it after the
    run was in it before, with the same content. *)
Theorem source_entries_are_never_made_up argv w x e :
  x <> "completed" ->
  pending (snd (main argv w)) x = Some e ->
  pending w x = Some e.
Proof.
  destruct (main_safe argv w) as (names & (_ & _ & B & _) & _). apply B.
Qed.

(** X17: whatever the arguments, and whatever fails, no file is lost: an
    entry of the source directory is, after the run, still in the source
    directory or in [completed], with the content it had. *)
Theorem no_file_is_lost argv w x e :
  x <> "completed" ->
  pending w x = Some e ->
  pending (snd (main argv w)) x = Some e \/
  archived (snd (main argv w)) x = Some e.
Proof.
  destruct (main_safe argv w) as (names & (_ & _ & _ & C & _) & _). apply C.
Qed.

(** X18: the files of the other cycles stay: an entry of the source
    directory whose name does not start with the prefix of the cycle is not
    touched by the run. *)
Theorem other_cycles_are_not_touched argv n w x :
  cycle_of argv = Some n ->
  x <> "completed" ->
  String.prefix (cycle_prefix n) x = false ->
  pending (snd (main argv w)) x = pending w x.
Proof.
  intros Hcycle Hx Hprefix.
  destruct (main_safe argv w) as (names & (_ & _ & _ & _ & D) & Hnames).
  rewrite (Hnames n Hcycle) in D. apply D; [|exact Hx].
  destruct (main_valid argv n w Hcycle) as [Hn _].
  rewrite matching_prefix by exact Hn.
  intros Hin. apply list_elem_of_In, filter_In in Hin as [_ Hin]. congruence.
Qed.

(** *** What a run prints and calls *)

Lemma valid_run argv n w :
  cycle_of argv = Some n ->
  NoDup (keys (plans w)) ->
  blocked w = false ->
  exists w',
    main argv w = (Ok tt, w') /\
    has_archive w' /\
    locked w' = locked w /\
    stdout w' = (stdout w ++ Moving (format_04d n) :: transcript n w)%list /\
    calls w' =
      (calls w ++ Mkdir "completed" :: Glob (cycle_pattern n) ::
       flat_map (probes w) (matching n w))%list /\
    (forall name, name ∈ matching n w ->
       if movable w name
       then pending w' name = None /\ archived w' name = pending w name
       else pending w' name = pending w name /\
            archived w' name = archived w name).
Proof.
  intros Hcycle Hnd Hb. destruct (main_valid argv n w Hcycle) as [Hn ->].
  destruct (move_cycle_files_run n (say [Moving (format_04d n)] w)
              (not_blocked w Hb) Hnd)
    as (w' & -> & Harch & Hlock & Hout & Hcalls & _ & Hself).
  exists w'. split; [reflexivity|]. split; [exact Harch|].
  split; [exact Hlock|]. split; [|split; [exact Hcalls|exact Hself]].
  rewrite Hout. simpl. now rewrite <- app_assoc.
Qed.

(** X19: a run on a directory without name clashes prints the cycle it
    moves, then either that no file matches, or the number of matching
    files, one line per matching file in the order of the listing (skipped,
    refused or moved) and the count of the moves; nothing else. *)
Theorem run_prints_one_line_per_matching_file argv n w :
  cycle_of argv = Some n ->
  NoDup (keys (plans w)) ->
  blocked w = false ->
  exists w',
    main argv w = (Ok tt, w') /\
    stdout w' =
      (stdout w ++ Moving (format_04d n) ::
       match matching n w with
       | [] => [NoFilesFound (cycle_pattern n)]
       | _ :: _ =>
           Found (length (matching n w)) ::
           map (verdict w) (matching n w) ++
           [Completed (Z.of_nat (length (List.filter (movable w) (matching n w))))]
       end)%list /\
    matching n w = List.filter (String.prefix (cycle_prefix n)) (keys (plans w)).
Proof.
  intros Hcycle Hnd Hb.
  destruct (valid_run argv n w Hcycle Hnd Hb) as (w' & Hmain & _ & _ & Hout & _).
  exists w'. split; [exact Hmain|]. split; [exact Hout|].
  apply matching_prefix. now destruct (main_valid argv n w Hcycle).
Qed.

Lemma in_probes w names c :
  c ∈ flat_map (probes w) names ->
  exists name, name ∈ names /\ c ∈ probes w name.
Proof.
  intros H. apply list_elem_of_In, in_flat_map in H as (name & Hn & Hc).
  exists name. split; now apply list_elem_of_In.
Qed.

(** X20: after [mkdir] and [glob], the run asks for each matching file
    whether the name is taken in [completed], and calls [shutil.move] for
    the files whose name is free, and for no other: a file is never moved
    onto an entry of [completed]. *)
Theorem move_is_called_on_free_names_only argv n w :
  cycle_of argv = Some n ->
  NoDup (keys (plans w)) ->
  blocked w = false ->
  exists w' more,
    main argv w = (Ok tt, w') /\
    calls w' =
      (calls w ++ Mkdir "completed" :: Glob (cycle_pattern n) :: more)%list /\
    (forall name, Exists name ∈ more <-> name ∈ matching n w) /\
    (forall name, Move name ∈ more <->
                  name ∈ matching n w /\ archived w name = None).
Proof.
  intros Hcycle Hnd Hb.
  destruct (valid_run argv n w Hcycle Hnd Hb) as (w' & Hmain & _ & _ & _ & Hcalls & _).
  exists w', (flat_map (probes w) (matching n w)).
  split; [exact Hmain|]. split; [exact Hcalls|]. split.
  - intros name. split.
    + intros H. apply in_probes in H as (x & Hx & Hc). unfold probes in Hc.
      destruct (archived w x); set_solver.
    + intros H. apply list_elem_of_In, in_flat_map. exists name.
      split; [now apply list_elem_of_In|]. unfold probes.
      destruct (archived w name); simpl; auto.
  - intros name. split.
    + intros H. apply in_probes in H as (x & Hx & Hc). unfold probes in Hc.
      destruct (archived w x) eqn:E; [set_solver|].
      assert (x = name) by set_solver. subst x. auto.
    + intros [H E]. apply list_elem_of_In, in_flat_map. exists name.
      split; [now apply list_elem_of_In|]. unfold probes. rewrite E.
      simpl. auto.
Qed.

(** *** A second run *)

Lemma move_all_idle names count w :
  (forall name, name ∈ names -> movable w name = false) ->
  exists w',
    move_all names count w = (Ok count, w') /\
    plans w' = plans w /\
    locked w' = locked w /\
    stdout w' = (stdout w ++ map (verdict w) names)%list.
Proof.
  revert count w. induction names as [|name rest IH]; intros count w Hidle.
  - exists w. simpl. now rewrite app_nil_r.
  - assert (Hname : movable w name = false) by (apply Hidle; set_solver).
    cbn [move_all]. unfold mbind, M_bind, bind. rewrite move_one_run. cbv zeta.
    unfold movable in Hname. unfold verdict at 1. cbn [map].
    destruct (archived w name) as [old|] eqn:Hold.
    + destruct (IH count (say [WarnExists name] (log (Exists name) w)))
        as (w' & -> & Hp & Hl & Ho); [intros x Hx; apply Hidle; set_solver|].
      exists w'. split; [reflexivity|]. split; [exact Hp|]. split; [exact Hl|].
      rewrite Ho. simpl. rewrite <- app_assoc. reflexivity.
    + apply negb_false_iff in Hname. rewrite Hname.
      destruct (IH count (say [ErrMoving name PermissionError]
                            (log (Move name) (log (Exists name) w))))
        as (w' & -> & Hp & Hl & Ho); [intros x Hx; apply Hidle; set_solver|].
      exists w'. split; [reflexivity|]. split; [exact Hp|]. split; [exact Hl|].
      rewrite Ho. simpl. rewrite <- app_assoc. reflexivity.
Qed.

Lemma verdict_of_idle w name x :
  movable w name = false -> verdict w name <> Moved x.
Proof.
  unfold movable, verdict. destruct (archived w name); [discriminate|].
  destruct (bool_decide (name ∈ locked w)); discriminate.
Qed.

Lemma idle_run n w :
  has_archive w ->
  (forall name, name ∈ matching n w -> movable w name = false) ->
  exists w' out,
    move_cycle_files n w = (Ok tt, w') /\
    plans w' = plans w /\
    stdout w' = (stdout w ++ out)%list /\
    (forall x, Moved x ∉ out) /\
    (matching n w <> [] -> last out = Some (Completed 0)).
Proof.
  intros [entries Harch] Hidle.
  unfold move_cycle_files, mkdir_exist_ok. unfold mbind, M_bind, bind.
  change (assoc "completed" (plans (log (Mkdir "completed") w)))
    with (assoc "completed" (plans w)).
  rewrite Harch. cbv iota beta. unfold glob.
  fold (matching n (log (Mkdir "completed") w)).
  change (matching n (log (Mkdir "completed") w)) with (matching n w).
  destruct (matching n w) as [|name rest] eqn:E.
  - exists (say [NoFilesFound (cycle_pattern n)]
              (log (Glob (cycle_pattern n)) (log (Mkdir "completed") w))),
      [NoFilesFound (cycle_pattern n)].
    split; [reflexivity|]. split; [reflexivity|]. split; [reflexivity|].
    split; [|congruence]. intros x Hx.
    apply list_elem_of_singleton in Hx. discriminate.
  - rewrite <- E in *.
    destruct (move_all_idle (matching n w) 0
                (say [Found (length (matching n w))]
                   (log (Glob (cycle_pattern n)) (log (Mkdir "completed") w))))
      as (w1 & Hrun & Hp & Hl & Ho); [exact Hidle|].
    change (print (Found (length (matching n w)))
              (log (Glob (cycle_pattern n)) (log (Mkdir "completed") w)))
      with (Ok tt, say [Found (length (matching n w))]
              (log (Glob (cycle_pattern n)) (log (Mkdir "completed") w))).
    cbv iota beta. rewrite Hrun.
    exists (say [Completed 0] w1),
      (Found (length (matching n w)) ::
       map (verdict w) (matching n w) ++ [Completed 0])%list.
    split; [reflexivity|]. split; [exact Hp|]. split; [|split].
    + simpl. rewrite Ho. simpl. now rewrite <- !app_assoc.
    + intros x Hx. apply elem_of_cons in Hx as [Hx|Hx]; [discriminate|].
      apply elem_of_app in Hx as [Hx|Hx].
      * apply list_elem_of_fmap in Hx as (y & Hy & Hin).
        symmetry in Hy. revert Hy. apply verdict_of_idle. now apply Hidle.
      * apply list_elem_of_singleton in Hx. discriminate.
    + intros _. rewrite app_comm_cons. apply last_snoc.
Qed.

(** X21: running the script again with the same argument moves nothing:
    the files of the first run that were skipped or refused are skipped or
    refused again, the directory is left as the first run left it, and the
    second run reports no move (a count of 0, or no matching file). *)
Theorem second_run_moves_nothing argv n w :
  cycle_of argv = Some n ->
  NoDup (keys (plans w)) ->
  blocked w = false ->
  exists w1 w2 out,
    main argv w = (Ok tt, w1) /\
    main argv w1 = (Ok tt, w2) /\
    plans w2 = plans w1 /\
    stdout w2 = (stdout w1 ++ Moving (format_04d n) :: out)%list /\
    (forall x, Moved x ∉ out) /\
    (matching n w1 <> [] -> last out = Some (Completed 0)).
Proof.
  intros Hcycle Hnd Hb.
  destruct (valid_run argv n w Hcycle Hnd Hb)
    as (w1 & Hmain & Harch & Hlock & _ & _ & Hself).
  destruct (main_valid argv n w Hcycle) as [Hn _].
  assert (Hidle : forall name, name ∈ matching n w1 -> movable w1 name = false).
  { intros name Hin. unfold matching in Hin.
    apply list_elem_of_In, filter_In in Hin as [Hkey Hmatch].
    apply list_elem_of_In, assoc_keys in Hkey as [e He].
    assert (Hc : name <> "completed")
      by (intros ->; now rewrite completed_no_match in Hmatch).
    assert (Hbefore : pending w name = Some e).
    { destruct (main_safe argv w) as (names & (_ & _ & B & _) & _).
      apply (B name e Hc). rewrite Hmain. exact He. }
    assert (Hin : name ∈ matching n w).
    { unfold matching. apply list_elem_of_In, filter_In. split; [|exact Hmatch].
      apply list_elem_of_In, assoc_keys. unfold pending in Hbefore. eauto. }
    specialize (Hself name Hin).
    destruct (movable w name) eqn:Hm.
    - destruct Hself as [Hgone _]. unfold pending in *. congruence.
    - destruct Hself as [_ Ha]. unfold movable in *. now rewrite Ha, Hlock. }
  destruct (idle_run n (say [Moving (format_04d n)] w1) Harch Hidle)
    as (w2 & out & Hrun & Hp & Ho & Hmoved & Hlast).
  exists w1, w2, out. split; [exact Hmain|].
  destruct (main_valid argv n w1 Hcycle) as [_ ->]. rewrite Hrun.
  split; [reflexivity|]. split; [exact Hp|]. split; [|split; assumption].
  rewrite Ho. simpl. now rewrite <- app_assoc.
Qed.

(** *** One cycle and the next *)

Lemma padded_facts n :
  1 <= n <= 9999 ->
  String.length (format_04d n) = 4%nat /\ py_int (format_04d n) = Ok n.
Proof.
  intros Hn.
  assert (H : forallb (fun k =>
                (String.length (format_04d k) =? 4)%nat &&
                match py_int (format_04d k) with
                | Ok k' => (k' =? k)%Z
                | Raise _ => false
                end) (seqZ 1 9999) = true) by (vm_compute; reflexivity).
  rewrite forallb_forall in H. specialize (H n).
  destruct (andb_prop _ _ (H ltac:(apply list_elem_of_In, elem_of_seqZ; lia)))
    as [H1 H2].
  apply Nat.eqb_eq in H1. split; [exact H1|].
  destruct (py_int (format_04d n)); [|discriminate].
  apply Z.eqb_eq in H2. now subst.
Qed.

Lemma same_length_prefixes p q s :
  String.prefix p s = true -> String.prefix q s = true ->
  String.length p = String.length q -> p = q.
Proof.
  intros Hp Hq Hlen. apply prefix_correct in Hp, Hq. congruence.
Qed.

(** X22: the numbers from 1 to 9999 are padded to four digits and read
    back as themselves, so two different cycles never match the same file:
    the run for cycle 1 does not take the files of cycle 10 or 100. *)
Theorem cycles_do_not_share_files n m name :
  1 <= n <= 9999 ->
  1 <= m <= 9999 ->
  n <> m ->
  fnmatch (cycle_pattern n) name = true ->
  fnmatch (cycle_pattern m) name = false.
Proof.
  intros Hn Hm Hne Hmatch.
  change (cycle_pattern n) with (cycle_prefix n ++ "*") in Hmatch.
  change (cycle_pattern m) with (cycle_prefix m ++ "*").
  rewrite fnmatch_prefix in * by now apply cycle_prefix_literal.
  destruct (String.prefix (cycle_prefix m) name) eqn:Hother; [|reflexivity].
  destruct (padded_facts n Hn) as [Ln Rn].
  destruct (padded_facts m Hm) as [Lm Rm].
  unfold cycle_prefix in Hmatch, Hother.
  set (a := format_04d n) in *. set (b := format_04d m) in *.
  clearbody a b.
  assert (E : "DevCycle_2025_" ++ a = "DevCycle_2025_" ++ b).
  { apply (same_length_prefixes _ _ name Hmatch Hother).
    change (String.length ("DevCycle_2025_" ++ a))
      with (14 + String.length a)%nat.
    change (String.length ("DevCycle_2025_" ++ b))
      with (14 + String.length b)%nat.
    congruence. }
  change ("DevCycle_2025_" ++ a) with (String.append "DevCycle_2025_" a) in E.
  change ("DevCycle_2025_" ++ b) with (String.append "DevCycle_2025_" b) in E.
  cbv [String.append] in E. assert (E' : a = b) by congruence.
  rewrite E' in Rn. congruence.
Qed.

(** *** The theorems on the sample directories *)

Lemma wrong_argument_count_prints_usage_witness :
  exists w',
    main [script] (desk cycle_13 []) = (Raise (SystemExit 1), w') /\
    exit_code (fst (main [script] (desk cycle_13 []))) = 1 /\
    stdout w' = (stdout (desk cycle_13 []) ++ [Usage; UsageExample])%list /\
    calls w' = calls (desk cycle_13 []) /\
    plans w' = plans (desk cycle_13 []).
Proof.
  apply (wrong_argument_count_prints_usage [script] (desk cycle_13 [])).
  simpl. lia.
Defined.

Lemma destination_that_is_a_file_stops_the_run_witness :
  exists w',
    main [script; "13"] blocked_desk = (Raise (SystemExit 1), w') /\
    stdout w' =
      (stdout blocked_desk ++
       [Moving (format_04d 13); ErrOther FileExistsError])%list /\
    calls w' = (calls blocked_desk ++ [Mkdir "completed"])%list /\
    plans w' = plans blocked_desk.
Proof.
  apply (destination_that_is_a_file_stops_the_run [script; "13"] 13 blocked_desk).
  - vm_compute. reflexivity.
  - reflexivity.
Defined.

Lemma main_returns_or_exits_1_witness :
  (fst (main [script; "13"] pinned_desk) = Ok tt \/
   fst (main [script; "13"] pinned_desk) = Raise (SystemExit 1)) /\
  (fst (main [script; "13"] pinned_desk) = Ok tt <->
   exists n, cycle_of [script; "13"] = Some n /\ blocked pinned_desk = false) /\
  (exit_code (fst (main [script; "13"] pinned_desk)) = 0 \/
   exit_code (fst (main [script; "13"] pinned_desk)) = 1).
Proof.
  apply (main_returns_or_exits_1 [script; "13"] pinned_desk).
  repeat constructor.
Defined.

Lemma archive_entries_are_kept_witness :
  archived (snd (main [script; "13"] busy_desk)) plan_13
    = Some (File "old plan").
Proof.
  apply (archive_entries_are_kept [script; "13"] busy_desk plan_13
           (File "old plan")).
  vm_compute. reflexivity.
Defined.

Lemma source_entries_are_never_made_up_witness :
  pending (desk cycle_13 []) "DevCycle_2025_0014.md" = Some (File "next").
Proof.
  apply (source_entries_are_never_made_up [script; "13"] (desk cycle_13 [])
           "DevCycle_2025_0014.md" (File "next")).
  - discriminate.
  - vm_compute. reflexivity.
Defined.

Lemma no_file_is_lost_witness :
  pending (snd (main [script; "13"] pinned_desk)) plan_13 = Some (File "plan") \/
  archived (snd (main [script; "13"] pinned_desk)) plan_13 = Some (File "plan").
Proof.
  apply (no_file_is_lost [script; "13"] pinned_desk plan_13 (File "plan")).
  - discriminate.
  - reflexivity.
Defined.

Lemma other_cycles_are_not_touched_witness :
  pending (snd (main [script; "13"] (desk cycle_13 []))) "DevCycle_2025_0014.md"
    = pending (desk cycle_13 []) "DevCycle_2025_0014.md".
Proof.
  apply (other_cycles_are_not_touched [script; "13"] 13 (desk cycle_13 [])
           "DevCycle_2025_0014.md").
  - vm_compute. reflexivity.
  - discriminate.
  - vm_compute. reflexivity.
Defined.

Lemma run_prints_one_line_per_matching_file_witness :
  exists w',
    main [script; "13"] pinned_desk = (Ok tt, w') /\
    stdout w' =
      (stdout pinned_desk ++ Moving (format_04d 13) ::
       match matching 13 pinned_desk with
       | [] => [NoFilesFound (cycle_pattern 13)]
       | _ :: _ =>
           Found (length (matching 13 pinned_desk)) ::
           map (verdict pinned_desk) (matching 13 pinned_desk) ++
           [Completed (Z.of_nat (length (List.filter (movable pinned_desk)
                                           (matching 13 pinned_desk))))]
       end)%list /\
    matching 13 pinned_desk =
      List.filter (String.prefix (cycle_prefix 13)) (keys (plans pinned_desk)).
Proof.
  apply (run_prints_one_line_per_matching_file [script; "13"] 13 pinned_desk).
  - vm_compute. reflexivity.
  - apply (bool_decide_unpack _). vm_compute. reflexivity.
  - reflexivity.
Defined.

Lemma move_is_called_on_free_names_only_witness :
  exists w' more,
    main [script; "13"] busy_desk = (Ok tt, w') /\
    calls w' =
      (calls busy_desk ++
       Mkdir "completed" :: Glob (cycle_pattern 13) :: more)%list /\
    (forall name, Exists name ∈ more <-> name ∈ matching 13 busy_desk) /\
    (forall name, Move name ∈ more <->
                  name ∈ matching 13 busy_desk /\ archived busy_desk name = None).
Proof.
  apply (move_is_called_on_free_names_only [script; "13"] 13 busy_desk).
  - vm_compute. reflexivity.
  - apply (bool_decide_unpack _). vm_compute. reflexivity.
  - reflexivity.
Defined.

Lemma second_run_moves_nothing_witness :
  exists w1 w2 out,
    main [script; "13"] pinned_desk = (Ok tt, w1) /\
    main [script; "13"] w1 = (Ok tt, w2) /\
    plans w2 = plans w1 /\
    stdout w2 = (stdout w1 ++ Moving (format_04d 13) :: out)%list /\
    (forall x, Moved x ∉ out) /\
    (matching 13 w1 <> [] -> last out = Some (Completed 0)).
Proof.
  apply (second_run_moves_nothing [script; "13"] 13 pinned_desk).
  - vm_compute. reflexivity.
  - apply (bool_decide_unpack _). vm_compute. reflexivity.
  - reflexivity.
Defined.

Lemma cycles_do_not_share_files_witness :
  fnmatch (cycle_pattern 130) "DevCycle_2025_0013_bugs_01.md" = false.
Proof.
  apply (cycles_do_not_share_files 13 130 "DevCycle_2025_0013_bugs_01.md").
  - lia.
  - lia.
  - lia.
  - vm_compute. reflexivity.
Defined.

End RelocatorBehaviour.
